(** * GrievanceInsight: the complaint analysis pipeline

    A shallow embedding of [backend/grievance_summarizer.py] (class
    [GrievanceSummarizer]), of the endpoints of [backend/app.py] that run
    the pipeline and of the trend extraction of [backend/ai_summarizer.py],
    followed by the properties of the pipeline.

    Modelling conventions.

    - A Python [str] is a sequence of code points; the model holds the code
      points below 256 (Latin-1) as the characters of a [string], and on
      them [lower], [strip], [\w], [isalnum] and [capitalize] are those of
      Python 3.8 and later (but for the capitals of U+00FF and U+00B5, which
      lie beyond 255).
    - A pandas [DataFrame] is the ordered list of its rows; every row keeps
      the index label it received when the frame was built.  A cell of the
      [raw_text] column is a text, Python's [None], or NaN; how a [None] of
      the input is stored depends on the other values of the column and on
      the version of pandas, which is a parameter of the model.  Values of
      [raw_text] that are neither a text nor [None] are not represented.
    - The file system is a parameter too: what [pd.read_csv] finds at a
      path, a table or an exception.
    - [np.random] is a generator state threaded through the computation by a
      small state monad: a state is the tape of the integers the generator
      produces with the number of draws made so far, [choice] consumes one.
    - The two transformers pipelines are optional collaborators held by
      [self]; a call of a collaborator may raise, which is [None]. *)

From Stdlib Require Import List String Ascii Bool Arith PeanoNat Lia.
From Stdlib Require Import Sorted Permutation DecimalString.
Import ListNotations.

Local Open Scope list_scope.
Local Open Scope string_scope.
Local Open Scope nat_scope.

(** ** Python string primitives, on the code points below 256 *)

Module PyStr.

Definition code (c : ascii) : nat := nat_of_ascii c.

Definition between (lo hi n : nat) : bool := (lo <=? n) && (n <=? hi).

(** The characters that [str.lower] changes: A-Z, and the capital letters
    U+00C0-U+00D6 and U+00D8-U+00DE. *)
Definition is_upper (c : ascii) : bool :=
  between 65 90 (code c) || between 192 214 (code c) || between 216 222 (code c).

(** [str.isspace] on one character: TAB..CR, FS..US, the blank, U+0085 and
    U+00A0. *)
Definition is_space (c : ascii) : bool :=
  between 9 13 (code c) || between 28 32 (code c)
  || (code c =? 133) || (code c =? 160).

(** [str.isalnum] on one character: the letters, the decimal digits, and the
    characters with a digit or numeric value (U+00B2, U+00B3, U+00B9 and
    U+00BC-U+00BE). *)
Definition is_alnum (c : ascii) : bool :=
  let n := code c in
  between 48 57 n || between 65 90 n || between 97 122 n
  || (n =? 170) || between 178 179 n || (n =? 181) || between 185 186 n
  || between 188 190 n || between 192 214 n || between 216 246 n
  || between 248 255 n.

(** The class [\w] of the [re] module on a [str] pattern. *)
Definition is_word (c : ascii) : bool := is_alnum c || (code c =? 95).

Definition lower_char (c : ascii) : ascii :=
  if is_upper c then ascii_of_nat (code c + 32) else c.

(** The title-case form of a character, with which [capitalize] starts: the
    small letters a-z, U+00E0-U+00F6 and U+00F8-U+00FE move to their
    capital, U+00DF becomes Ss.  The capitals of U+00FF and U+00B5 lie
    beyond code 255: the model cannot hold them and leaves these two
    characters as they are. *)
Definition title_char (c : ascii) : string :=
  let n := code c in
  if between 97 122 n || between 224 246 n || between 248 254 n
  then String (ascii_of_nat (n - 32)) EmptyString
  else if n =? 223 then "Ss"
  else String c EmptyString.

(** [s.lower()] *)
Fixpoint lower (s : string) : string :=
  match s with
  | EmptyString => EmptyString
  | String c t => String (lower_char c) (lower t)
  end.

(** [s.capitalize()] *)
Definition capitalize (s : string) : string :=
  match s with
  | EmptyString => EmptyString
  | String c t => title_char c ++ lower t
  end.

(** [s.lstrip()], [s.rstrip()], [s.strip()] *)
Fixpoint lstrip (s : string) : string :=
  match s with
  | EmptyString => EmptyString
  | String c t => if is_space c then lstrip t else s
  end.

Fixpoint rstrip (s : string) : string :=
  match s with
  | EmptyString => EmptyString
  | String c t =>
      match rstrip t with
      | EmptyString => if is_space c then EmptyString else String c EmptyString
      | t' => String c t'
      end
  end.

Definition strip (s : string) : string := rstrip (lstrip s).

(** [word in text] *)
Fixpoint contains (text word : string) : bool :=
  String.prefix word text
  || match text with
     | EmptyString => false
     | String _ t => contains t word
     end.

(** [s.isalnum()]: every character alphanumeric, and at least one. *)
Fixpoint all_alnum (s : string) : bool :=
  match s with
  | EmptyString => true
  | String c t => is_alnum c && all_alnum t
  end.

Definition isalnum (s : string) : bool :=
  match s with
  | EmptyString => false
  | _ => all_alnum s
  end.

(** [s[:n]] *)
Definition take (n : nat) (s : string) : string := String.substring 0 n s.

(** [sep.join(l)] *)
Fixpoint join (sep : string) (l : list string) : string :=
  match l with
  | [] => EmptyString
  | [s] => s
  | s :: t => s ++ sep ++ join sep t
  end.

(** [str(n)] for a non-negative integer. *)
Definition of_nat (n : nat) : string := NilZero.string_of_uint (Nat.to_uint n).

(** [any(word in text for word in words)] *)
Definition any_in (words : list string) (text : string) : bool :=
  existsb (contains text) words.

(** [w in set_of_words] *)
Definition mem (w : string) (words : list string) : bool :=
  existsb (String.eqb w) words.

End PyStr.

(** ** The random generator *)

Module Rand.

(** The state of [np.random]: the tape of the integers the generator
    produces, and how many of them have been consumed. *)
Record Rng := { tape : nat -> nat; drawn : nat }.

Definition M (A : Type) : Type := Rng -> A * Rng.

Definition ret {A} (a : A) : M A := fun g => (a, g).

Definition bind {A B} (m : M A) (k : A -> M B) : M B :=
  fun g => let (a, g') := m g in k a g'.

(** [np.random.choice(a, p=...)]: every weight in the source is positive, so
    every element of [a] can be drawn; which one is fixed by the tape. *)
Definition choice {A} (a : list A) (d : A) : M A :=
  fun g => (nth (tape g (drawn g) mod List.length a) a d,
            {| tape := tape g; drawn := S (drawn g) |}).

(** [np.random.choice(a, size=n, p=...)] *)
Fixpoint choices {A} (a : list A) (d : A) (n : nat) : M (list A) :=
  match n with
  | 0 => ret []
  | S n' => bind (choice a d) (fun x =>
            bind (choices a d n') (fun xs => ret (x :: xs)))
  end.

(** [series.apply(f)] for an [f] that may draw. *)
Fixpoint mapM {A B} (f : A -> M B) (l : list A) : M (list B) :=
  match l with
  | [] => ret []
  | x :: t => bind (f x) (fun y => bind (mapM f t) (fun ys => ret (y :: ys)))
  end.

End Rand.

Import Rand.

Notation "x <- m ;; k" := (bind m (fun x => k))
  (at level 61, m at next level, right associativity).

(** ** The part of pandas and of [collections] the pipeline uses *)

Module Pandas.

Section Dedup.
Context {A K : Type} (eqb : K -> K -> bool) (key : A -> K).

(** [df.drop_duplicates(subset=[col])] with the default [keep='first']:
    a row is dropped when an earlier row has the same key. *)
Fixpoint drop_duplicates_from (seen : list K) (rows : list A) : list A :=
  match rows with
  | [] => []
  | r :: t =>
      if existsb (eqb (key r)) seen then drop_duplicates_from seen t
      else r :: drop_duplicates_from (key r :: seen) t
  end.

Definition drop_duplicates (rows : list A) : list A :=
  drop_duplicates_from [] rows.
End Dedup.

Section Counting.
Context {K : Type} (eqb : K -> K -> bool).

(** One more occurrence of [k] in a table that keeps its keys in the order
    in which they were first inserted (a [dict]). *)
Fixpoint bump (k : K) (acc : list (K * nat)) : list (K * nat) :=
  match acc with
  | [] => [(k, 1)]
  | (k', n) :: t => if eqb k k' then (k', S n) :: t else (k', n) :: bump k t
  end.

(** [Counter(l)] *)
Definition Counter (l : list K) : list (K * nat) :=
  fold_left (fun acc k => bump k acc) l [].

(** [sorted(items, key=itemgetter(1), reverse=True)]: a stable sort, items
    of equal count keep their order. *)
Fixpoint insert_desc (x : K * nat) (s : list (K * nat)) : list (K * nat) :=
  match s with
  | [] => [x]
  | y :: t => if snd x <? snd y then y :: insert_desc x t else x :: s
  end.

Definition sort_desc (l : list (K * nat)) : list (K * nat) :=
  fold_right insert_desc [] l.

(** [Counter(l).most_common(n)], that is [heapq.nlargest(n, items, key)]. *)
Definition most_common (n : nat) (l : list K) : list (K * nat) :=
  firstn n (sort_desc (Counter l)).

(** [series.value_counts()]: the distinct values with their counts, most
    frequent first, values of equal count in the order of first appearance. *)
Definition value_counts (l : list K) : list (K * nat) :=
  sort_desc (Counter l).
End Counting.

(** [sum(d.values())] *)
Definition sum_values {K : Type} (d : list (K * nat)) : nat :=
  fold_right (fun kv acc => snd kv + acc) 0 d.

End Pandas.

Import PyStr Pandas.

(** ** Data *)

Inductive Category := Hostel | Mess | Academics | Administration.
Inductive Urgency := High | Medium | Low.

Definition Category_eqb (a b : Category) : bool :=
  match a, b with
  | Hostel, Hostel | Mess, Mess | Academics, Academics
  | Administration, Administration => true
  | _, _ => false
  end.

Definition Urgency_eqb (a b : Urgency) : bool :=
  match a, b with
  | High, High | Medium, Medium | Low, Low => true
  | _, _ => false
  end.

Definition Category_str (c : Category) : string :=
  match c with
  | Hostel => "Hostel"
  | Mess => "Mess"
  | Academics => "Academics"
  | Administration => "Administration"
  end.

(** A cell of the [raw_text] column: NaN, Python's [None], or a text.
    [drop_duplicates] on one column compares the cells as
    [Series.duplicated] does: two texts when they are the same string, a
    null cell with a null cell of the same kind. *)
Inductive Cell :=
| NaN
| PyNone
| Text (s : string).

Definition Cell_eqb (a b : Cell) : bool :=
  match a, b with
  | NaN, NaN => true
  | PyNone, PyNone => true
  | Text s, Text t => String.eqb s t
  | _, _ => false
  end.

(** [str(cell)] *)
Definition str (c : Cell) : string :=
  match c with
  | NaN => "nan"
  | PyNone => "None"
  | Text s => s
  end.

(** [pd.isna(cell)] *)
Definition isna (c : Cell) : bool :=
  match c with
  | Text _ => false
  | _ => true
  end.

(** One element of the [data] argument: a [dict] from column names to
    values, [None] being Python's [None]. *)
Definition PyDict := list (string * option string).

Fixpoint dict_get (k : string) (d : PyDict) : option (option string) :=
  match d with
  | [] => None
  | (k', v) :: t => if String.eqb k k' then Some v else dict_get k t
  end.

(** The rows of the frame as the stages add their columns. *)
Record RawRow := { label : nat; raw_text : Cell }.
Record CleanRow := { raw_row : RawRow; clean_text : string }.
Record ClassRow := { clean_row : CleanRow; category : Category }.
Record Complaint := { class_row : ClassRow; sentiment : string; urgency : Urgency }.

(** A frame, as far as the pipeline looks at it: its column [raw_text] with
    the index, or the fact that no column has this label, or that two have
    it (a file whose first column was renamed beside a column [raw_text]). *)
Inductive DataFrame :=
| Frame (rows : list RawRow)
| FrameWithout
| FrameTwice.

(** The installed pandas.  The two versions differ in the column they make
    of values among which there is a text: a column of Python objects for
    pandas 2, a column of strings for pandas 3. *)
Inductive Pandas := pandas_2 | pandas_3.

Definition has_raw_text (d : PyDict) : bool :=
  match dict_get "raw_text" d with
  | Some _ => true
  | None => false
  end.

Definition holds_text (d : PyDict) : bool :=
  match dict_get "raw_text" d with
  | Some (Some _) => true
  | _ => false
  end.

(** How [pd.DataFrame(data)] stores a [None].  The values of the column are
    those of the records, with NaN for a record without the key.  When a
    text is among them, pandas 2 keeps the [None] in its column of objects
    and pandas 3 stores NaN in its column of strings.  When there is no
    text, the values are converted to floats, and the [None] to NaN, if a
    NaN is among them; a column of [None] only is left as it is. *)
Definition stored_none (version : Pandas) (any_text any_missing : bool) : Cell :=
  if any_text then
    match version with
    | pandas_2 => PyNone
    | pandas_3 => NaN
    end
  else if any_missing then NaN else PyNone.

(** The cell of a record in [pd.DataFrame(data)]. *)
Definition stored_cell (version : Pandas) (any_text any_missing : bool) (d : PyDict)
  : Cell :=
  match dict_get "raw_text" d with
  | Some (Some s) => Text s
  | Some None => stored_none version any_text any_missing
  | None => NaN
  end.

Definition raw_text_cells (version : Pandas) (data : list PyDict) : list Cell :=
  map (stored_cell version (existsb holds_text data)
                   (existsb (fun d => negb (has_raw_text d)) data)) data.

Fixpoint index_rows (i : nat) (cells : list Cell) : list RawRow :=
  match cells with
  | [] => []
  | c :: t => {| label := i; raw_text := c |} :: index_rows (S i) t
  end.

(** [pd.DataFrame(data)]: the columns are the keys met in the records, the
    index is [0..n-1]. *)
Definition pd_DataFrame (version : Pandas) (data : list PyDict) : DataFrame :=
  if existsb has_raw_text data then Frame (index_rows 0 (raw_text_cells version data))
  else FrameWithout.

(** One record of [df.to_dict('records')]. *)
Record Processed := {
  p_raw_text : Cell;
  p_clean_text : string;
  p_category : Category;
  p_sentiment : string;
  p_urgency : Urgency }.

Definition to_record (r : Complaint) : Processed :=
  {| p_raw_text := raw_text (raw_row (clean_row (class_row r)));
     p_clean_text := clean_text (clean_row (class_row r));
     p_category := category (class_row r);
     p_sentiment := sentiment r;
     p_urgency := urgency r |}.

Record Trends := {
  t_top_recurring_issues : list string;
  t_weekly_summary : string }.

(** The dictionary [dashboard_data]. *)
Record Dashboard := {
  total_complaints : nat;
  complaint_volume_by_category : list (Category * nat);
  sentiment_overview : list (string * nat);
  urgency_distribution : list (Urgency * nat);
  weekly_summary : string;
  top_recurring_issues : list string;
  processed_complaints : list Processed }.

(** Exceptions, and the outcome of a call. *)
Inductive PyExn :=
| ValueError
| KeyError
| IndexError
| FileNotFoundError
| EmptyDataError
| ParserError
| UnicodeDecodeError.

Inductive result (A : Type) : Type :=
| Ok (a : A)
| Raise (e : PyExn).
Arguments Ok {A} a.
Arguments Raise {A} e.

(** [try: body except Exception as e: handler] *)
Definition try_except {A} (body : M (result A)) (handler : PyExn -> M (result A))
  : M (result A) :=
  fun g => match body g with
           | (Ok a, g') => (Ok a, g')
           | (Raise e, g') => handler e g'
           end.

(** What [pd.read_csv] makes of a file: the labels of its columns, and the
    cells of the first one, a text or an empty field.  (A first column that
    pandas reads as numbers is not represented.) *)
Record CsvTable := {
  csv_columns : list string;
  csv_first_column : list (option string) }.

Definition csv_cell (field : option string) : Cell :=
  match field with
  | Some s => Text s
  | None => NaN
  end.

(** Where the program runs: the installed pandas, and the files. *)
Record Env := {
  pandas : Pandas;
  read_csv : string -> result CsvTable }.

(** ** class [GrievanceSummarizer] *)

(** The collaborators of an instance, as the two lazy loaders leave them:
    [None] is the value [False] stored when the model cannot be loaded.  A
    loaded pipeline maps a text to the label (resp. the summary) found in its
    answer, or raises. *)
Record Self := {
  _sentiment_pipeline : option (string -> option string);
  _summarizer_pipeline : option (string -> option string) }.

Definition categories : list Category := [Hostel; Mess; Academics; Administration].

Definition stopwords : list string :=
  [ "i"; "me"; "my"; "myself"; "we"; "our"; "ours"; "ourselves"; "you"; "your";
    "yours"; "yourself"; "yourselves"; "he"; "him"; "his"; "himself"; "she";
    "her"; "hers"; "herself"; "it"; "its"; "itself"; "they"; "them"; "their";
    "theirs"; "themselves"; "what"; "which"; "who"; "whom"; "this"; "that";
    "these"; "those"; "am"; "is"; "are"; "was"; "were"; "be"; "been"; "being";
    "have"; "has"; "had"; "having"; "do"; "does"; "did"; "doing"; "a"; "an";
    "the"; "and"; "but"; "if"; "or"; "because"; "as"; "until"; "while"; "of";
    "at"; "by"; "for"; "with"; "through"; "during"; "before"; "after"; "above";
    "below"; "up"; "down"; "in"; "out"; "on"; "off"; "over"; "under"; "again";
    "further"; "then"; "once"; "to" ].

Definition _get_sentiment_pipeline (self : Self) := _sentiment_pipeline self.
Definition _get_summarizer_pipeline (self : Self) := _summarizer_pipeline self.

(** [re.findall(r'\b\w+\b', text.lower())]: the maximal runs of word
    characters.  [cur] is the run being read. *)
Definition flush (cur : string) : list string :=
  match cur with
  | EmptyString => []
  | _ => [cur]
  end.

Fixpoint findall_words (s cur : string) : list string :=
  match s with
  | EmptyString => flush cur
  | String c t =>
      if is_word c then findall_words t (cur ++ String c EmptyString)
      else (flush cur ++ findall_words t EmptyString)%list
  end.

Definition _tokenize (text : string) : list string :=
  findall_words (lower text) EmptyString.

(** The inner function of [clean_data]. *)
Definition clean_text_of (text : Cell) : string :=
  if isna text then EmptyString else strip (lower (str text)).

(** [clean_data]: [drop_duplicates] raises [KeyError] on a frame without
    the column; on a frame with two columns of that label [df['raw_text']]
    is a frame, on whose columns [clean_text] raises [ValueError]. *)
Definition clean_data (df : DataFrame) : result (list CleanRow) :=
  match df with
  | FrameWithout => Raise KeyError
  | FrameTwice => Raise ValueError
  | Frame rows =>
      Ok (map (fun r => {| raw_row := r; clean_text := clean_text_of (raw_text r) |})
              (drop_duplicates Cell_eqb raw_text rows))
  end.

Definition hostel_words := ["hostel"; "room"; "fan"; "water"; "washroom"; "leak"; "roommate"].
Definition mess_words := ["mess"; "food"; "chicken"; "quality"].
Definition academics_words := ["grade"; "course"; "portal"; "registration"].
Definition administration_words := ["staff"; "administration"; "office"; "fees"].

(** The inner function of [classify_complaints]. *)
Definition classify_text (text : string) : M Category :=
  let text_lower := lower text in
  if any_in hostel_words text_lower then ret Hostel
  else if any_in mess_words text_lower then ret Mess
  else if any_in academics_words text_lower then ret Academics
  else if any_in administration_words text_lower then ret Administration
  else choice categories Hostel.

Definition classify_complaints (df : list CleanRow) : M (list ClassRow) :=
  mapM (fun r => c <- classify_text (clean_text r) ;;
                 ret {| clean_row := r; category := c |}) df.

(** The inner function of [analyze_sentiment], for a loaded pipeline. *)
Definition get_sentiment (sentiment_pipeline : string -> option string)
  (text : string) : string :=
  match text with
  | EmptyString => "Neutral"
  | _ => match sentiment_pipeline (take 250 text) with
         | Some lbl => capitalize lbl
         | None => "Neutral"
         end
  end.

Fixpoint set_tone (df : list ClassRow) (ss : list string) (us : list Urgency)
  : list Complaint :=
  match df, ss, us with
  | r :: df', s :: ss', u :: us' =>
      {| class_row := r; sentiment := s; urgency := u |} :: set_tone df' ss' us'
  | _, _, _ => []
  end.

Definition analyze_sentiment (self : Self) (df : list ClassRow) : M (list Complaint) :=
  ss <- match _get_sentiment_pipeline self with
        | Some sentiment_pipeline =>
            ret (map (fun r => get_sentiment sentiment_pipeline (clean_text (clean_row r))) df)
        | None =>
            choices ["Negative"; "Neutral"; "Positive"] "Negative" (List.length df)
        end ;;
  us <- choices [High; Medium; Low] High (List.length df) ;;
  ret (set_tone df ss us).

Definition text_of (r : Complaint) : string := clean_text (clean_row (class_row r)).

Definition _generate_fallback_summary (df : list Complaint) : string :=
  let category_counts := value_counts Category_eqb (map (fun r => category (class_row r)) df) in
  let top_category :=
    match category_counts with
    | (c, _) :: _ => Category_str c
    | [] => "general"
    end in
  "Analysis of " ++ of_nat (List.length df)
  ++ " complaints shows primary concerns in " ++ lower top_category
  ++ " category. Key issues include maintenance, quality control, and service delivery. "
  ++ "Immediate attention required for high-priority complaints.".

Definition keep_word (w : string) : bool :=
  isalnum w && negb (mem w stopwords) && (2 <? String.length w).

Definition dquote : string := String "034"%char EmptyString.

Definition render_issue (wc : string * nat) : string :=
  "Frequent topic: " ++ dquote ++ capitalize (fst wc) ++ dquote
  ++ " (mentioned " ++ of_nat (snd wc) ++ " times)".

Definition extract_trends (self : Self) (df : list Complaint) : Trends :=
  let all_text := join " " (map text_of df) in
  let words := _tokenize all_text in
  let filtered_words := filter keep_word words in
  let top_words := most_common String.eqb 3 filtered_words in
  let recurring_issues := map render_issue top_words in
  let combined_text := join " " (map text_of df) in
  let summary :=
    match _get_summarizer_pipeline self with
    | Some summarizer =>
        if 50 <? String.length combined_text then
          match summarizer (take 2000 combined_text) with
          | Some s => s
          | None => _generate_fallback_summary df
          end
        else _generate_fallback_summary df
    | None => _generate_fallback_summary df
    end in
  {| t_top_recurring_issues := recurring_issues; t_weekly_summary := summary |}.

(** The first statements of the [try] block of [process_complaints]: the
    frame is read from [file_path] when it is given (and not empty), its
    first column renamed to [raw_text] unless it has this label already;
    otherwise the frame is built from [data] when it is given (and not
    empty); otherwise [ValueError] is raised. *)
Definition load (env : Env) (data : option (list PyDict)) (file_path : option string)
  : result DataFrame :=
  match file_path with
  | Some (String c p) =>
      match read_csv env (String c p) with
      | Raise e => Raise e
      | Ok df =>
          match csv_columns df with
          | [] => Raise IndexError
          | first :: others =>
              if mem "raw_text" others then Ok FrameTwice
              else Ok (Frame (index_rows 0 (map csv_cell (csv_first_column df))))
          end
      end
  | _ =>
      match data with
      | Some ((_ :: _) as l) => Ok (pd_DataFrame (pandas env) l)
      | _ => Raise ValueError
      end
  end.

(** The body of the [try] block of [process_complaints]. *)
Definition process_body (env : Env) (self : Self) (data : option (list PyDict))
  (file_path : option string) : M (result Dashboard) :=
  match load env data file_path with
  | Raise e => ret (Raise e)
  | Ok df =>
      match clean_data df with
      | Raise e => ret (Raise e)
      | Ok df1 =>
          df2 <- classify_complaints df1 ;;
          df3 <- analyze_sentiment self df2 ;;
          let trends := extract_trends self df3 in
          ret (Ok {| total_complaints := List.length df3;
                     complaint_volume_by_category :=
                       value_counts Category_eqb (map (fun r => category (class_row r)) df3);
                     sentiment_overview := value_counts String.eqb (map sentiment df3);
                     urgency_distribution := value_counts Urgency_eqb (map urgency df3);
                     weekly_summary := t_weekly_summary trends;
                     top_recurring_issues := t_top_recurring_issues trends;
                     processed_complaints := map to_record df3 |})
      end
  end.

Definition process_complaints (env : Env) (self : Self) (data : option (list PyDict))
  (file_path : option string) : M (result (option Dashboard)) :=
  try_except
    (fun g => match process_body env self data file_path g with
              | (Ok d, g') => (Ok (Some d), g')
              | (Raise e, g') => (Raise e, g')
              end)
    (fun _ => ret (Ok None)).

(** [create_sample_data()] *)
Definition create_sample_data : list PyDict :=
  map (fun s => [("raw_text", Some s)])
  [ "The mess food is awful, it's uncooked and smells bad. Please check the quality control immediately.";
    "My hostel room fan is not working. I submitted a request last week but no one came. Urgent! The heat is unbearable.";
    "I need my grade verified for the Algorithms course. I think there was a clerical error.";
    "Staff at the administration office were rude and unhelpful when I asked about my fees. The process took hours.";
    "There's a massive water leak near Block C of the boys' hostel. It needs immediate repair and the area smells bad.";
    "The quality of the chicken in the mess today was terrible. Tasted stale and uncooked.";
    "I can't access the online portal for my subject registration. It keeps showing an error.";
    "Another complaint about the poor ventilation in the library study room. It's too hot to study.";
    "The washroom in the hostel needs cleaning. It has been dirty for two days.";
    "The AC in the lecture hall 101 is broken. It is a major disruption." ].

(** ** [app.py]: the endpoint [POST /analyze/batch] *)

Inductive Http :=
| Response (d : Dashboard)
| HTTPException (status_code : nat).

(** The handler: its own [HTTPException] of status 400 is raised inside the
    [try] block, whose [except Exception] clause turns whatever is raised
    there into a status 500. *)
Definition analyze_complaints_batch (env : Env) (self : Self) (batch : list string)
  : M Http :=
  let complaints_data := map (fun s => [("raw_text", Some s)]) batch in
  let body : M (Http + nat) :=
    match complaints_data with
    | [] => ret (inr 400)
    | _ =>
        rs <- process_complaints env self (Some complaints_data) None ;;
        match rs with
        | Ok (Some d) => ret (inl (Response d))
        | _ => ret (inr 500)
        end
    end in
  r <- body ;;
  match r with
  | inl h => ret h
  | inr _ => ret (HTTPException 500)
  end.

Definition no_models : Self :=
  {| _sentiment_pipeline := None; _summarizer_pipeline := None |}.

Definition rng_of (t : nat -> nat) : Rng := {| tape := t; drawn := 0 |}.

(** ** Vocabulary of the statements *)

Definition all_keywords : list string :=
  (hostel_words ++ mess_words ++ academics_words ++ administration_words)%list.

Section Positions.
Context {K : Type} (eqb : K -> K -> bool).

(** The position of the first occurrence of [k] in [l] ([length l] when there
    is none), and the number of its occurrences. *)
Fixpoint first_index (k : K) (l : list K) : nat :=
  match l with
  | [] => 0
  | x :: t => if eqb k x then 0 else S (first_index k t)
  end.

Definition occurrences (k : K) (l : list K) : nat :=
  List.length (filter (eqb k) l).

(** The count recorded for a key. *)
Fixpoint recorded (k : K) (acc : list (K * nat)) : nat :=
  match acc with
  | [] => 0
  | (k', n) :: t => if eqb k k' then n else recorded k t
  end.

(** [a] is ranked before [b]: it is more frequent, or as frequent and first
    met earlier in [positions]. *)
Definition ranked_before (positions : list K) (a b : K * nat) : Prop :=
  snd b < snd a \/
  (snd a = snd b /\ first_index (fst a) positions < first_index (fst b) positions).

(** [ranked] is the frequency ranking of the elements of [words], ties
    resolved by first occurrence in [positions]. *)
Definition frequency_ranking (positions words : list K) (ranked : list (K * nat)) : Prop :=
  NoDup (map fst ranked) /\
  (forall k, In k (map fst ranked) <-> In k words) /\
  (forall k n, In (k, n) ranked -> n = occurrences k words) /\
  StronglySorted (ranked_before positions) ranked.
End Positions.

(** The sentiment column before the urgency draws. *)
Definition sentiment_column (self : Self) (df : list ClassRow) : M (list string) :=
  match _get_sentiment_pipeline self with
  | Some sentiment_pipeline =>
      ret (map (fun r => get_sentiment sentiment_pipeline (clean_text (clean_row r))) df)
  | None => choices ["Negative"; "Neutral"; "Positive"] "Negative" (List.length df)
  end.

(** The dashboard assembled from the frame of the last stage. *)
Definition dashboard_of (self : Self) (df3 : list Complaint) : Dashboard :=
  let trends := extract_trends self df3 in
  {| total_complaints := List.length df3;
     complaint_volume_by_category :=
       value_counts Category_eqb (map (fun r => category (class_row r)) df3);
     sentiment_overview := value_counts String.eqb (map sentiment df3);
     urgency_distribution := value_counts Urgency_eqb (map urgency df3);
     weekly_summary := t_weekly_summary trends;
     top_recurring_issues := t_top_recurring_issues trends;
     processed_complaints := map to_record df3 |}.

(** The frame of the last stage, for a frame [df1] out of [clean_data]. *)
Definition toned (self : Self) (df1 : list CleanRow) (g : Rng) : list Complaint :=
  fst (analyze_sentiment self (fst (classify_complaints df1 g))
                         (snd (classify_complaints df1 g))).

(** The cells of the column [raw_text] of the frame a call loads, when the
    frame has one such column. *)
Definition loaded_cells (env : Env) (data : option (list PyDict))
  (file_path : option string) : option (list Cell) :=
  match load env data file_path with
  | Ok (Frame rows) => Some (map raw_text rows)
  | _ => None
  end.

(** Generators, environments and batches used in the examples. *)
Definition no_files (version : Pandas) : Env :=
  {| pandas := version; read_csv := fun _ => Raise FileNotFoundError |}.

Definition one_file (version : Pandas) (path : string) (table : CsvTable) : Env :=
  {| pandas := version;
     read_csv := fun p => if String.eqb p path then Ok table
                          else Raise FileNotFoundError |}.

Definition weekly_csv : CsvTable :=
  {| csv_columns := ["complaint"; "block"];
     csv_first_column := [Some "No water in block C"; None; Some "No water in block C"] |}.

Definition const_tape (n : nat) : Rng := rng_of (fun _ => n).
Definition counting_tape : Rng := rng_of (fun n => n).

Definition batch_of (texts : list string) : list PyDict :=
  map (fun s => [("raw_text", Some s)]) texts.

Definition two_complaints : list PyDict :=
  batch_of ["The mess food is awful, quality is bad.";
            "Hostel fan broken, urgent repair needed."].

(** A classified row whose text asks for an urgent repair. *)
Definition urgent_row : ClassRow :=
  {| clean_row := {| raw_row := {| label := 0;
                                   raw_text := Text "Urgent: no water, repair immediately!" |};
                     clean_text := "urgent: no water, repair immediately!" |};
     category := Hostel |}.

(** A summarizer that always answers. *)
Definition with_summarizer : Self :=
  {| _sentiment_pipeline := None;
     _summarizer_pipeline := Some (fun _ => Some "a model-written summary") |}.

Definition toned_row (text : string) (c : Category) (s : string) (u : Urgency) : Complaint :=
  {| class_row := {| clean_row := {| raw_row := {| label := 0; raw_text := Text text |};
                                     clean_text := text |};
                     category := c |};
     sentiment := s; urgency := u |}.

(** The text of the fallback summary for a number of rows and the name of a
    category. *)
Definition fallback_template (n : nat) (name : string) : string :=
  "Analysis of " ++ of_nat n
  ++ " complaints shows primary concerns in " ++ name
  ++ " category. Key issues include maintenance, quality control, and service delivery. "
  ++ "Immediate attention required for high-priority complaints.".

(** Order-preserving selection of rows. *)
Inductive Subseq {A : Type} : list A -> list A -> Prop :=
| Subseq_nil : Subseq [] []
| Subseq_keep x l l' : Subseq l l' -> Subseq (x :: l) (x :: l')
| Subseq_drop x l l' : Subseq l l' -> Subseq l (x :: l').

(** What normalisation is said to produce: the text in lower case, without
    the white space at its two ends; the empty text for a null cell. *)
Fixpoint all_space (s : string) : bool :=
  match s with
  | EmptyString => true
  | String c t => is_space c && all_space t
  end.

Definition starts_with_space (s : string) : bool :=
  match s with
  | EmptyString => false
  | String c _ => is_space c
  end.

Fixpoint ends_with_space (s : string) : bool :=
  match s with
  | EmptyString => false
  | String c EmptyString => is_space c
  | String _ t => ends_with_space t
  end.

Definition trimmed_form (s out : string) : Prop :=
  exists p q, s = (p ++ out ++ q)%string /\ all_space p = true /\ all_space q = true /\
              starts_with_space out = false /\ ends_with_space out = false.

Definition normalized (raw : Cell) (clean : string) : Prop :=
  match raw with
  | Text s => trimmed_form (lower s) clean /\ lower clean = clean
  | _ => clean = EmptyString
  end.

(** ** [app.py]: the other endpoints that run the pipeline *)

(** What an endpoint sends back: a body, or an [HTTPException]. *)
Inductive Reply (A : Type) : Type :=
| Sent (body : A)
| Failed (status_code : nat).
Arguments Sent {A} body.
Arguments Failed {A} status_code.

(** The dictionary returned by [POST /analyze/single]. *)
Record SingleAnalysis := {
  s_complaint : string;
  s_category : Category;
  s_sentiment : string;
  s_urgency : Urgency;
  s_clean_text : string }.

(** [analyze_single_complaint]: the first processed record of a batch of
    one; a missing result, like anything raised in the [try] block
    (the [IndexError] of [[0]] included), leaves as a status 500. *)
Definition analyze_single_complaint (env : Env) (self : Self) (raw : string)
  : M (Reply SingleAnalysis) :=
  rs <- process_complaints env self (Some [[("raw_text", Some raw)]]) None ;;
  match rs with
  | Ok (Some results) =>
      match processed_complaints results with
      | r :: _ =>
          ret (Sent {| s_complaint := raw;
                       s_category := p_category r;
                       s_sentiment := p_sentiment r;
                       s_urgency := p_urgency r;
                       s_clean_text := p_clean_text r |})
      | [] => ret (Failed 500)
      end
  | _ => ret (Failed 500)
  end.

(** ** [app.py]: [GET /analytics/db]

    The two answers of the database manager are arguments of the handler,
    [None] when the call raised.  Timestamps are an abstract type with its
    [isoformat]. *)

(** The dictionary of [get_grievance_stats]. *)
Record Stats := {
  st_total : nat;
  st_categories : list (string * nat);
  st_sentiments : list (string * nat);
  st_urgencies : list (string * nat) }.

(** [d.get(k, default)] *)
Fixpoint get_or (k : string) (d : list (string * nat)) (default : nat) : nat :=
  match d with
  | [] => default
  | (k', v) :: t => if String.eqb k k' then v else get_or k t default
  end.

Section DatabaseAnalytics.
Variable datetime : Type.
Variable isoformat : datetime -> string.

(** A row of [get_all_grievances_with_analysis]: the columns of the analysis
    are null when the grievance has none (left join). *)
Record GrievanceRow := {
  g_id : nat;
  g_raw_text : string;
  g_clean_text : option string;
  g_category : option string;
  g_sentiment : option string;
  g_urgency : option string;
  g_submitted_at : option datetime;
  g_processed_at : option datetime }.

(** An entry of [processed_complaints] in the answer. *)
Record AnalyzedGrievance := {
  a_id : nat;
  a_raw_text : string;
  a_clean_text : option string;
  a_category : string;
  a_sentiment : option string;
  a_urgency : option string;
  a_submitted_at : option string;
  a_processed_at : option string }.

Record DbDashboard := {
  db_total_complaints : nat;
  db_complaint_volume_by_category : list (string * nat);
  db_sentiment_overview : list (string * nat);
  db_urgency_distribution : list (string * nat);
  db_weekly_summary : string;
  db_top_recurring_issues : list string;
  db_processed_complaints : list AnalyzedGrievance }.

(** The body of the loop: [if grievance['category']: append(...)]. *)
Definition analyzed_entry (grievance : GrievanceRow) : list AnalyzedGrievance :=
  match g_category grievance with
  | Some (String c s) =>
      [ {| a_id := g_id grievance;
           a_raw_text := g_raw_text grievance;
           a_clean_text := g_clean_text grievance;
           a_category := String c s;
           a_sentiment := g_sentiment grievance;
           a_urgency := g_urgency grievance;
           a_submitted_at := option_map isoformat (g_submitted_at grievance);
           a_processed_at := option_map isoformat (g_processed_at grievance) |} ]
  | _ => []
  end.

Definition get_database_analytics (db_stats : option Stats)
  (db_grievances : option (list GrievanceRow)) : Reply DbDashboard :=
  match db_stats with
  | None => Failed 500
  | Some stats =>
      match db_grievances with
      | None => Failed 500
      | Some recent_grievances =>
          let processed_complaints := flat_map analyzed_entry recent_grievances in
          let category_items := sort_desc (st_categories stats) in
          let top_recurring_issues := map fst (firstn 5 category_items) in
          let total := st_total stats in
          let negative_count := get_or "negative" (st_sentiments stats) 0 in
          let high_urgency_count := get_or "high" (st_urgencies stats) 0 in
          let weekly_summary :=
            "Database contains " ++ of_nat total ++ " total grievances. "
            ++ of_nat negative_count ++ " show negative sentiment, and "
            ++ of_nat high_urgency_count
            ++ " are marked as high urgency. Top categories: "
            ++ join ", " (firstn 3 top_recurring_issues) ++ "." in
          Sent {| db_total_complaints := total;
                  db_complaint_volume_by_category := st_categories stats;
                  db_sentiment_overview := st_sentiments stats;
                  db_urgency_distribution := st_urgencies stats;
                  db_weekly_summary := weekly_summary;
                  db_top_recurring_issues := top_recurring_issues;
                  db_processed_complaints := processed_complaints |}
      end
  end.

End DatabaseAnalytics.

(** ** [ai_summarizer.py]: the standalone script *)

Module AiSummarizer.

(** [simple_word_tokenize] *)
Definition simple_word_tokenize (text : string) : list string :=
  findall_words (lower text) EmptyString.

(** The inner function of [clean_data]. *)
Definition anonymize_text (text : Cell) : string :=
  if isna text then EmptyString else lower (str text).

(** [clean_data]: duplicates dropped in place, then [clean_text] assigned and
    stripped by [.str.strip()]. *)
Definition clean_data (df : DataFrame) : result (list CleanRow) :=
  match df with
  | FrameWithout => Raise KeyError
  | FrameTwice => Raise ValueError
  | Frame rows =>
      let df1 := map (fun r => {| raw_row := r; clean_text := anonymize_text (raw_text r) |})
                     (drop_duplicates Cell_eqb raw_text rows) in
      Ok (map (fun r => {| raw_row := raw_row r; clean_text := strip (clean_text r) |}) df1)
  end.

Definition placeholder_summary : string :=
  "The analysis indicates high volume complaints this week, primarily concerning food quality and hostel maintenance. Urgent action is required to address several critical water leaks and staff behavior in the administrative sector.".

(** [summarize_and_extract_trends]; [summarizer] is [None] when importing or
    loading the model raises. *)
Definition summarize_and_extract_trends (summarizer : option (string -> option string))
  (df : list Complaint) : Trends :=
  let all_text := join " " (map text_of df) in
  let words := simple_word_tokenize all_text in
  let filtered_words := filter keep_word words in
  let fdist := Counter String.eqb filtered_words in
  let top_3_words := map fst (firstn 3 (sort_desc fdist)) in
  let issues :=
    map (fun word => "Frequent topic: " ++ dquote ++ capitalize word ++ dquote
                     ++ " (mentioned " ++ of_nat (recorded String.eqb word fdist)
                     ++ " times)") top_3_words in
  let combined_complaints := join " " (map text_of df) in
  let summary :=
    match summarizer with
    | Some f =>
        match f (take 2000 combined_complaints) with
        | Some s => s
        | None => placeholder_summary
        end
    | None => placeholder_summary
    end in
  {| t_top_recurring_issues := issues; t_weekly_summary := summary |}.

End AiSummarizer.

(** ** Vocabulary of the further statements *)

(** [table] holds, for each label met in [labels] and for no other, the
    number of its occurrences. *)
Definition exact_counts {K : Type} (eqb : K -> K -> bool) (labels : list K)
  (table : list (K * nat)) : Prop :=
  NoDup (map fst table) /\
  (forall k, In k (map fst table) <-> In k labels) /\
  (forall k n, In (k, n) table -> n = occurrences eqb k labels /\ 1 <= n).

(** The category the keyword table gives to a text, if any rule matches. *)
Definition keyword_category (text : string) : option Category :=
  let t := lower text in
  if any_in hostel_words t then Some Hostel
  else if any_in mess_words t then Some Mess
  else if any_in academics_words t then Some Academics
  else if any_in administration_words t then Some Administration
  else None.

Definition unmatched (text : string) : bool :=
  match keyword_category text with
  | Some _ => false
  | None => true
  end.

(** The frame [clean_data] makes of a batch that has a [raw_text] key. *)
Definition cleaned (version : Pandas) (l : list PyDict) : list CleanRow :=
  map (fun r => {| raw_row := r; clean_text := clean_text_of (raw_text r) |})
      (drop_duplicates Cell_eqb raw_text (index_rows 0 (raw_text_cells version l))).

(** The maximal runs of word characters of a text, from left to right:
    the text is a stretch without word character, then the first run, which
    is not empty and is followed by no word character, then the rest. *)
Fixpoint all_word (s : string) : bool :=
  match s with
  | EmptyString => true
  | String c t => is_word c && all_word t
  end.

Fixpoint no_word (s : string) : bool :=
  match s with
  | EmptyString => true
  | String c t => negb (is_word c) && no_word t
  end.

Definition starts_with_word (s : string) : bool :=
  match s with
  | EmptyString => false
  | String c _ => is_word c
  end.

Inductive word_runs : string -> list string -> Prop :=
| word_runs_none sep : no_word sep = true -> word_runs sep []
| word_runs_next sep tok rest toks :
    no_word sep = true -> tok <> EmptyString -> all_word tok = true ->
    starts_with_word rest = false -> word_runs rest toks ->
    word_runs (sep ++ tok ++ rest) (tok :: toks).

(** No character is white space. *)
Fixpoint no_space (s : string) : bool :=
  match s with
  | EmptyString => true
  | String c t => negb (is_space c) && no_space t
  end.

(** A sentiment pipeline that raises on every text, and one that answers. *)
Definition with_failing_sentiment : Self :=
  {| _sentiment_pipeline := Some (fun _ => None); _summarizer_pipeline := None |}.

Definition with_sentiment : Self :=
  {| _sentiment_pipeline := Some (fun _ => Some "NEGATIVE"); _summarizer_pipeline := None |}.

(** * Properties *)

(** ** Facts on the string primitives *)

Section StringFacts.

Lemma prefix_lower (w t : string) :
  String.prefix w t = true -> String.prefix (lower w) (lower t) = true.
Proof.
  revert t; induction w as [|c w IH]; intros [|d t]; simpl; try easy.
  destruct (ascii_dec c d) as [->|Hne]; [|discriminate].
  destruct (ascii_dec (lower_char d) (lower_char d)) as [_|Hn]; [auto|now destruct Hn].
Qed.

Lemma contains_lower (t w : string) :
  contains t w = true -> contains (lower t) (lower w) = true.
Proof.
  induction t as [|c t IH]; simpl; intros H; apply orb_true_iff in H;
    apply orb_true_iff.
  - destruct H as [H|H]; [left|discriminate].
    now apply (prefix_lower w EmptyString).
  - destruct H as [H|H]; [left|right; auto].
    now apply (prefix_lower w (String c t)).
Qed.

(** A list of lower-case words found in a text is found in its lower-cased
    form too. *)
Lemma any_in_lower (words : list string) (text : string) :
  map lower words = words ->
  any_in words text = true -> any_in words (lower text) = true.
Proof.
  unfold any_in; intros Hw H.
  apply existsb_exists in H as (w & Hin & Hc).
  apply existsb_exists; exists w; split; [exact Hin|].
  assert (Hl : lower w = w).
  { clear Hc; revert Hw Hin; induction words as [|x xs IH]; simpl; [easy|].
    intros Heq [->|Hin]; injection Heq; auto. }
  rewrite <- Hl; now apply contains_lower.
Qed.

Lemma lower_char_idem (c : ascii) : lower_char (lower_char c) = lower_char c.
Proof.
  destruct c as [[] [] [] [] [] [] [] []]; vm_compute; reflexivity.
Qed.

Lemma lower_idem (s : string) : lower (lower s) = lower s.
Proof.
  induction s as [|c s IH]; simpl; [reflexivity|].
  now rewrite lower_char_idem, IH.
Qed.

Lemma lower_length (s : string) : String.length (lower s) = String.length s.
Proof. induction s; simpl; auto. Qed.

End StringFacts.

(** ** The categorizer *)

(** C3. [classify_text] tries the four keyword rules in a fixed order on the
    lower-cased text and the first rule that matches decides, without any
    draw: Hostel when a Hostel keyword occurs; Mess when none does and a
    Mess keyword occurs; Academics when neither does and an Academics
    keyword occurs; Administration when none of the three does and an
    Administration keyword occurs.  So a text that holds a Hostel keyword
    and a Mess keyword is classified Hostel, where the Mess keyword alone
    would have made it Mess. *)
Theorem classify_text_first_match_wins (text : string) (g : Rng) :
  let t := lower text in
  (any_in hostel_words text = true -> any_in mess_words text = true ->
   classify_text text g = (Hostel, g)) /\
  (any_in hostel_words t = true -> classify_text text g = (Hostel, g)) /\
  (any_in hostel_words t = false -> any_in mess_words t = true ->
   classify_text text g = (Mess, g)) /\
  (any_in hostel_words t = false -> any_in mess_words t = false ->
   any_in academics_words t = true -> classify_text text g = (Academics, g)) /\
  (any_in hostel_words t = false -> any_in mess_words t = false ->
   any_in academics_words t = false -> any_in administration_words t = true ->
   classify_text text g = (Administration, g)).
Proof.
  cbv zeta; split.
  - intros Hh _.
    apply (any_in_lower hostel_words text eq_refl) in Hh.
    unfold classify_text; cbv zeta; now rewrite Hh.
  - unfold classify_text; cbv zeta.
    repeat split; intros;
      repeat match goal with H : any_in _ _ = _ |- _ => rewrite H; clear H end;
      reflexivity.
Qed.

Lemma classify_text_first_match_wins_witness :
  classify_text "hostel mess food issue" (rng_of (fun _ => 1))
  = (Hostel, rng_of (fun _ => 1)) /\
  classify_text "mess food issue" (rng_of (fun _ => 0))
  = (Mess, rng_of (fun _ => 0)).
Proof.
  split.
  - apply (classify_text_first_match_wins "hostel mess food issue"); reflexivity.
  - apply (classify_text_first_match_wins "mess food issue"); reflexivity.
Defined.

(** Membership of a drawn element. *)
Lemma choice_In {A} (a : list A) (d : A) (g : Rng) :
  a <> [] -> In (fst (choice a d g)) a.
Proof.
  intros Ha; unfold choice; simpl.
  apply nth_In, Nat.mod_upper_bound.
  destruct a; [congruence | discriminate].
Qed.

Lemma any_in_app (l1 l2 : list string) (t : string) :
  any_in (l1 ++ l2)%list t = any_in l1 t || any_in l2 t.
Proof. unfold any_in; apply existsb_app. Qed.

(** C4, as the code has it.  A text in which no keyword occurs is given the
    category the generator draws among the four: the result is whatever the
    tape says, and each of the four categories is a possible result. *)
Theorem classify_text_default_is_drawn (text : string) :
  any_in all_keywords (lower text) = false ->
  (forall g, classify_text text g = choice categories Hostel g) /\
  (forall g, In (fst (classify_text text g)) categories) /\
  (forall c, exists g, fst (classify_text text g) = c).
Proof.
  unfold all_keywords; rewrite !any_in_app; intros H.
  apply orb_false_iff in H as [H1 H]; apply orb_false_iff in H as [H2 H];
    apply orb_false_iff in H as [H3 H4].
  assert (E : forall g, classify_text text g = choice categories Hostel g).
  { intros g; unfold classify_text; cbv zeta; now rewrite H1, H2, H3, H4. }
  split; [exact E | split].
  - intros g; rewrite E; apply choice_In; discriminate.
  - intros c; destruct c;
      [exists (rng_of (fun _ => 0)) | exists (rng_of (fun _ => 1))
      | exists (rng_of (fun _ => 2)) | exists (rng_of (fun _ => 3))];
      rewrite E; reflexivity.
Qed.

Lemma classify_text_default_is_drawn_witness :
  any_in all_keywords (lower "the ac in the lecture hall 101 is broken.") = false /\
  fst (classify_text "the ac in the lecture hall 101 is broken." (rng_of (fun _ => 2)))
  = Academics.
Proof.
  split; [reflexivity|].
  destruct (classify_text_default_is_drawn
              "the ac in the lecture hall 101 is broken." eq_refl) as (E & _ & _).
  rewrite E; reflexivity.
Defined.

(** C4, as stated, fails: the text below holds no keyword, and with a tape
    whose next integer is 1 it is classified Mess. *)
Lemma classify_text_default_not_hostel :
  any_in all_keywords "the ac in the lecture hall 101 is broken." = false /\
  fst (classify_text "the ac in the lecture hall 101 is broken." (rng_of (fun _ => 1)))
  <> Hostel.
Proof. split; [reflexivity | vm_compute; discriminate]. Qed.

(** ** Counting and ranking *)

Section CountingFacts.
Context {K : Type} (eqb : K -> K -> bool).

Lemma sum_values_bump (k : K) (acc : list (K * nat)) :
  sum_values (bump eqb k acc) = S (sum_values acc).
Proof.
  induction acc as [|[k' n] t IH]; simpl; [reflexivity|].
  destruct (eqb k k'); simpl; [reflexivity | rewrite IH; lia].
Qed.

Lemma Counter_snoc (l : list K) (k : K) :
  Counter eqb (l ++ [k]) = bump eqb k (Counter eqb l).
Proof. unfold Counter; now rewrite fold_left_app. Qed.

Lemma sum_values_Counter (l : list K) :
  sum_values (Counter eqb l) = List.length l.
Proof.
  induction l as [|k l IH] using rev_ind; [reflexivity|].
  rewrite Counter_snoc, sum_values_bump, IH, length_app; simpl; lia.
Qed.

Lemma insert_desc_perm (x : K * nat) (s : list (K * nat)) :
  Permutation (insert_desc x s) (x :: s).
Proof.
  induction s as [|y t IH]; simpl; [reflexivity|].
  destruct (snd x <? snd y); [|reflexivity].
  rewrite IH; apply perm_swap.
Qed.

Lemma sort_desc_perm (l : list (K * nat)) : Permutation (sort_desc l) l.
Proof.
  induction l as [|x l IH]; simpl; [reflexivity|].
  rewrite insert_desc_perm; now constructor.
Qed.

Lemma Forall_perm {A} (P : A -> Prop) (l l' : list A) :
  Permutation l l' -> Forall P l -> Forall P l'.
Proof.
  intros Hp H; rewrite Forall_forall in *; intros a Ha; apply H.
  now apply (Permutation_in a (Permutation_sym Hp)).
Qed.

Lemma sum_values_perm (l l' : list (K * nat)) :
  Permutation l l' -> sum_values l = sum_values l'.
Proof. induction 1; simpl; lia. Qed.

(** The counts of [value_counts] add up to the number of values. *)
Lemma sum_values_value_counts (l : list K) :
  sum_values (value_counts eqb l) = List.length l.
Proof.
  unfold value_counts.
  rewrite (sum_values_perm _ _ (sort_desc_perm _)); apply sum_values_Counter.
Qed.

Hypothesis eqb_eq : forall a b, eqb a b = true <-> a = b.

Lemma eqb_refl' (a : K) : eqb a a = true.
Proof. now apply eqb_eq. Qed.

Lemma eqb_neq (a b : K) : eqb a b = false <-> a <> b.
Proof.
  split.
  - intros H E; apply eqb_eq in E; congruence.
  - intros H; destruct (eqb a b) eqn:E; [apply eqb_eq in E; contradiction | reflexivity].
Qed.

(** The keys of a table after one more occurrence. *)
Lemma keys_bump (k : K) (acc : list (K * nat)) :
  map fst (bump eqb k acc)
  = if existsb (eqb k) (map fst acc) then map fst acc else (map fst acc ++ [k])%list.
Proof.
  induction acc as [|[k' n] t IH]; simpl; [reflexivity|].
  destruct (eqb k k') eqn:E; simpl; [reflexivity|].
  rewrite IH; now destruct (existsb (eqb k) (map fst t)).
Qed.

Lemma existsb_eqb_In (k : K) (l : list K) : existsb (eqb k) l = true <-> In k l.
Proof.
  rewrite existsb_exists; split.
  - intros (x & Hin & E); apply eqb_eq in E; now subst.
  - intros Hin; exists k; split; [exact Hin | apply eqb_refl'].
Qed.

Lemma keys_Counter_In (l : list K) (k : K) :
  In k (map fst (Counter eqb l)) <-> In k l.
Proof.
  induction l as [|x l IH] using rev_ind; [simpl; tauto|].
  rewrite Counter_snoc, keys_bump, in_app_iff.
  destruct (existsb (eqb x) (map fst (Counter eqb l))) eqn:E.
  - apply existsb_eqb_In in E. rewrite IH. simpl.
    split; [tauto|]. intros [H|[<-|[]]]; [exact H | now apply IH].
  - rewrite in_app_iff, IH; tauto.
Qed.

Lemma keys_Counter_NoDup (l : list K) : NoDup (map fst (Counter eqb l)).
Proof.
  induction l as [|x l IH] using rev_ind; [constructor|].
  rewrite Counter_snoc, keys_bump.
  destruct (existsb (eqb x) (map fst (Counter eqb l))) eqn:E; [exact IH|].
  apply NoDup_app; [exact IH | repeat constructor; simpl; tauto |].
  intros a Ha [<-|[]].
  apply existsb_eqb_In in Ha; congruence.
Qed.

Lemma occurrences_snoc (k x : K) (l : list K) :
  occurrences eqb k (l ++ [x])
  = occurrences eqb k l + (if eqb k x then 1 else 0).
Proof.
  unfold occurrences; rewrite filter_app, length_app; simpl.
  now destruct (eqb k x).
Qed.

Lemma recorded_bump (a k : K) (acc : list (K * nat)) :
  recorded eqb a (bump eqb k acc) = recorded eqb a acc + (if eqb a k then 1 else 0).
Proof.
  induction acc as [|[k' n] t IH]; simpl.
  - destruct (eqb a k); reflexivity.
  - destruct (eqb k k') eqn:E; simpl.
    + apply eqb_eq in E; subst k'.
      destruct (eqb a k); lia.
    + destruct (eqb a k') eqn:F; [|exact IH].
      apply eqb_eq in F; subst k'.
      assert (G : eqb a k = false).
      { apply eqb_neq; intros ->; now rewrite eqb_refl' in E. }
      rewrite G; lia.
Qed.

Lemma recorded_Counter (a : K) (l : list K) :
  recorded eqb a (Counter eqb l) = occurrences eqb a l.
Proof.
  induction l as [|x l IH] using rev_ind; [reflexivity|].
  now rewrite Counter_snoc, recorded_bump, occurrences_snoc, IH.
Qed.

Lemma recorded_In (k : K) (n : nat) (acc : list (K * nat)) :
  NoDup (map fst acc) -> In (k, n) acc -> recorded eqb k acc = n.
Proof.
  induction acc as [|[k' m] t IH]; simpl; [easy|].
  intros Hnd [E|Hin].
  - injection E as -> ->; now rewrite eqb_refl'.
  - inversion Hnd as [|? ? Hnot Hnd']; subst.
    destruct (eqb k k') eqn:E; [|auto].
    apply eqb_eq in E; subst k'.
    exfalso; apply Hnot; change k with (fst (k, n)); now apply in_map.
Qed.

(** Every entry of [Counter l] holds the number of occurrences of its key. *)
Lemma Counter_counts (l : list K) (k : K) (n : nat) :
  In (k, n) (Counter eqb l) -> n = occurrences eqb k l.
Proof.
  intros Hin; rewrite <- recorded_Counter; symmetry.
  apply recorded_In; [apply keys_Counter_NoDup | exact Hin].
Qed.

(** *** First occurrences *)

Lemma first_index_lt (k : K) (l : list K) :
  first_index eqb k l < List.length l <-> In k l.
Proof.
  induction l as [|x l IH]; simpl; [split; [lia | tauto]|].
  destruct (eqb k x) eqn:E.
  - apply eqb_eq in E; subst; split; [auto | lia].
  - apply eqb_neq in E; rewrite <- Nat.succ_lt_mono, IH.
    split; [auto | intros [H|H]; [congruence | exact H]].
Qed.

Lemma first_index_le (k : K) (l : list K) : first_index eqb k l <= List.length l.
Proof.
  induction l as [|x l IH]; simpl; [lia|]; destruct (eqb k x); lia.
Qed.

Lemma first_index_app_l (k : K) (l m : list K) :
  In k l -> first_index eqb k (l ++ m) = first_index eqb k l.
Proof.
  induction l as [|x l IH]; simpl; [tauto|].
  destruct (eqb k x) eqn:E; [reflexivity|].
  apply eqb_neq in E; intros [H|H]; [congruence | now rewrite IH].
Qed.

Lemma first_index_app_r (k : K) (l m : list K) :
  ~ In k l -> first_index eqb k (l ++ m) = List.length l + first_index eqb k m.
Proof.
  induction l as [|x l IH]; simpl; [reflexivity|].
  intros H; destruct (eqb k x) eqn:E.
  - apply eqb_eq in E; subst; tauto.
  - rewrite IH; tauto.
Qed.

Lemma StronglySorted_snoc {A} (R : A -> A -> Prop) (l : list A) (x : A) :
  StronglySorted R l -> Forall (fun a => R a x) l -> StronglySorted R (l ++ [x]).
Proof.
  induction 1 as [|a l Hs IH Ha]; simpl; intros Hx.
  - repeat constructor.
  - inversion Hx; subst; constructor; [auto|].
    apply Forall_app; split; [exact Ha | repeat constructor; assumption].
Qed.

Lemma StronglySorted_weaken {A} (R R' : A -> A -> Prop) (l : list A) :
  (forall a b, In a l -> In b l -> R a b -> R' a b) ->
  StronglySorted R l -> StronglySorted R' l.
Proof.
  intros H Hs; induction Hs as [|a l Hs IH Ha]; constructor.
  - apply IH; intros; apply H; simpl; auto.
  - rewrite Forall_forall in *; intros b Hb; apply H; simpl; auto.
Qed.

(** The keys of [Counter l] come in the order of their first occurrence. *)
Lemma keys_Counter_order (l : list K) :
  StronglySorted (fun a b => first_index eqb a l < first_index eqb b l)
                 (map fst (Counter eqb l)).
Proof.
  induction l as [|x l IH] using rev_ind; [constructor|].
  assert (W : StronglySorted
                (fun a b => first_index eqb a (l ++ [x]) < first_index eqb b (l ++ [x]))
                (map fst (Counter eqb l))).
  { revert IH; apply StronglySorted_weaken; intros a b Ha Hb.
    apply (proj1 (keys_Counter_In _ _)) in Ha.
    apply (proj1 (keys_Counter_In _ _)) in Hb.
    now rewrite !first_index_app_l. }
  rewrite Counter_snoc, keys_bump.
  destruct (existsb (eqb x) (map fst (Counter eqb l))) eqn:E; [exact W|].
  apply StronglySorted_snoc; [exact W|].
  apply Forall_forall; intros a Ha.
  apply (proj1 (keys_Counter_In _ _)) in Ha.
  assert (Hx : ~ In x l).
  { intros Hx; apply (proj2 (keys_Counter_In _ _)) in Hx.
    apply (proj2 (existsb_eqb_In _ _)) in Hx; congruence. }
  rewrite first_index_app_l by exact Ha.
  rewrite first_index_app_r by exact Hx.
  apply (proj2 (first_index_lt _ _)) in Ha; lia.
Qed.

(** *** The stable descending sort *)

Lemma ranked_before_count (pos : list K) (a b : K * nat) :
  ranked_before eqb pos a b -> snd b <= snd a.
Proof. unfold ranked_before; lia. Qed.

Lemma insert_desc_sorted (pos : list K) (x : K * nat) (s : list (K * nat)) :
  StronglySorted (ranked_before eqb pos) s ->
  Forall (fun y => first_index eqb (fst x) pos < first_index eqb (fst y) pos) s ->
  StronglySorted (ranked_before eqb pos) (insert_desc x s).
Proof.
  induction 1 as [|y t Hs IH Hy]; simpl; intros Hx.
  - repeat constructor.
  - inversion Hx as [|? ? Hxy Hxt]; subst.
    destruct (snd x <? snd y) eqn:E.
    + apply Nat.ltb_lt in E.
      constructor; [auto|].
      apply Forall_perm with (l := x :: t);
        [symmetry; apply insert_desc_perm|].
      constructor; [left; exact E | exact Hy].
    + apply Nat.ltb_ge in E.
      constructor; [constructor; assumption|].
      constructor.
      * destruct (Nat.eq_dec (snd x) (snd y)) as [Q|Q]; [right; auto | left; lia].
      * rewrite Forall_forall in *; intros z Hz.
        specialize (Hy z Hz); apply ranked_before_count in Hy.
        specialize (Hxt z Hz).
        destruct (Nat.eq_dec (snd x) (snd z)) as [Q|Q]; [right; auto | left; lia].
Qed.

Lemma sort_desc_sorted (pos : list K) (l : list (K * nat)) :
  StronglySorted (fun a b => first_index eqb (fst a) pos < first_index eqb (fst b) pos) l ->
  StronglySorted (ranked_before eqb pos) (sort_desc l).
Proof.
  induction 1 as [|x l Hs IH Hx]; simpl; [constructor|].
  apply insert_desc_sorted; [exact IH|].
  apply Forall_perm with (l := l); [symmetry; apply sort_desc_perm | exact Hx].
Qed.

Lemma StronglySorted_map_fst {B} (R : K -> K -> Prop) (l : list (K * B)) :
  StronglySorted R (map fst l) ->
  StronglySorted (fun a b => R (fst a) (fst b)) l.
Proof.
  induction l as [|a l IH]; simpl; intros H; [constructor|].
  inversion H as [|? ? Hs Ha]; subst; constructor; [auto|].
  rewrite Forall_forall in *; intros b Hb; apply Ha; now apply in_map.
Qed.

Lemma first_index_filter (f : K -> bool) (a b : K) (l : list K) :
  f a = true -> f b = true ->
  (first_index eqb a (filter f l) < first_index eqb b (filter f l)
   <-> first_index eqb a l < first_index eqb b l).
Proof.
  intros Fa Fb; induction l as [|x l IH]; simpl; [tauto|].
  destruct (eqb a x) eqn:Ea.
  - apply eqb_eq in Ea; subst x; rewrite Fa; simpl; rewrite eqb_refl'.
    destruct (eqb b a); split; lia.
  - destruct (eqb b x) eqn:Eb.
    + apply eqb_eq in Eb; subst x; rewrite Fb; simpl; rewrite Ea, eqb_refl'.
      split; lia.
    + destruct (f x); simpl; [rewrite Ea, Eb|]; rewrite <- ?Nat.succ_lt_mono; exact IH.
Qed.

(** [sort_desc (Counter words)] is the frequency ranking of [words]; the
    ties may be read in any list [tokens] of which [words] is a filtering. *)
Lemma ranking_of_Counter (f : K -> bool) (tokens : list K) :
  frequency_ranking eqb tokens (filter f tokens)
                    (sort_desc (Counter eqb (filter f tokens))).
Proof.
  set (words := filter f tokens).
  assert (Hp := sort_desc_perm (Counter eqb words)).
  repeat split.
  - apply (Permutation_NoDup (l := map fst (Counter eqb words)));
      [symmetry; now apply Permutation_map | apply keys_Counter_NoDup].
  - intros H; apply keys_Counter_In.
    now apply (Permutation_in _ (Permutation_map fst Hp)).
  - intros H; apply (proj2 (keys_Counter_In _ _)) in H.
    now apply (Permutation_in _ (Permutation_sym (Permutation_map fst Hp))).
  - intros k n H; apply Counter_counts.
    now apply (Permutation_in _ Hp).
  - apply sort_desc_sorted.
    assert (Hk := keys_Counter_order words).
    apply StronglySorted_map_fst in Hk.
    revert Hk; apply StronglySorted_weaken; intros a b Ha Hb.
    assert (Ia : In (fst a) words)
      by (apply keys_Counter_In; now apply in_map).
    assert (Ib : In (fst b) words)
      by (apply keys_Counter_In; now apply in_map).
    unfold words in Ia, Ib; apply filter_In in Ia, Ib.
    apply first_index_filter; tauto.
Qed.

End CountingFacts.

(** ** The generator *)

Lemma choices_eq {A} (a : list A) (d : A) (n : nat) (g : Rng) :
  choices a d n g
  = (map (fun i => nth (tape g (drawn g + i) mod List.length a) a d) (seq 0 n),
     {| tape := tape g; drawn := drawn g + n |}).
Proof.
  revert g; induction n as [|n IH]; intros g.
  - simpl; unfold ret; destruct g; simpl; now rewrite Nat.add_0_r.
  - cbn [choices]; unfold bind at 1; unfold choice at 1.
    unfold bind at 1; rewrite IH; unfold ret; simpl.
    rewrite Nat.add_0_r, <- seq_shift, map_map.
    f_equal; [f_equal|f_equal; lia].
    apply map_ext; intros i; now rewrite Nat.add_succ_r.
Qed.

Lemma choices_length {A} (a : list A) (d : A) (n : nat) (g : Rng) :
  List.length (fst (choices a d n g)) = n.
Proof. rewrite choices_eq; simpl; now rewrite length_map, length_seq. Qed.

(** ** The stages keep the rows *)

Lemma classify_complaints_rows (df : list CleanRow) (g : Rng) :
  map clean_row (fst (classify_complaints df g)) = df.
Proof.
  revert g; induction df as [|r df IH]; intros g; [reflexivity|].
  unfold classify_complaints in *; cbn [mapM].
  unfold bind at 1; unfold bind at 1.
  destruct (classify_text (clean_text r) g) as [c g1]; unfold ret at 1.
  unfold bind at 1.
  specialize (IH g1); destruct (mapM _ df g1) as [ys g2]; simpl in *.
  now rewrite IH.
Qed.

Lemma set_tone_columns (df : list ClassRow) (ss : list string) (us : list Urgency) :
  List.length ss = List.length df -> List.length us = List.length df ->
  map class_row (set_tone df ss us) = df /\
  map sentiment (set_tone df ss us) = ss /\
  map urgency (set_tone df ss us) = us.
Proof.
  revert ss us; induction df as [|r df IH]; intros [|s ss] [|u us]; simpl;
    try discriminate; auto.
  intros H1 H2; injection H1 as H1; injection H2 as H2.
  destruct (IH ss us H1 H2) as (-> & -> & ->); auto.
Qed.

Lemma sentiment_column_length (self : Self) (df : list ClassRow) (g : Rng) :
  List.length (fst (sentiment_column self df g)) = List.length df.
Proof.
  unfold sentiment_column; destruct (_get_sentiment_pipeline self).
  - simpl; apply length_map.
  - apply choices_length.
Qed.

Lemma analyze_sentiment_eq (self : Self) (df : list ClassRow) (g : Rng) :
  analyze_sentiment self df g
  = let (ss, g1) := sentiment_column self df g in
    let (us, g2) := choices [High; Medium; Low] High (List.length df) g1 in
    (set_tone df ss us, g2).
Proof. reflexivity. Qed.

Lemma analyze_sentiment_columns (self : Self) (df : list ClassRow) (g : Rng) :
  let out := fst (analyze_sentiment self df g) in
  map class_row out = df /\
  map sentiment out = fst (sentiment_column self df g) /\
  map urgency out
  = fst (choices [High; Medium; Low] High (List.length df) (snd (sentiment_column self df g))).
Proof.
  rewrite analyze_sentiment_eq.
  pose proof (sentiment_column_length self df g) as Hs.
  destruct (sentiment_column self df g) as [ss g1]; cbn [fst snd] in *.
  pose proof (choices_length [High; Medium; Low] High (List.length df) g1) as Hu.
  destruct (choices [High; Medium; Low] High (List.length df) g1) as [us g2].
  cbn [fst snd] in *; now apply set_tone_columns.
Qed.

Lemma analyze_sentiment_rows (self : Self) (df : list ClassRow) (g : Rng) :
  map class_row (fst (analyze_sentiment self df g)) = df.
Proof. apply analyze_sentiment_columns. Qed.

(** ** The normalizer *)

Section DedupFacts.
Context {A K : Type} (eqb : K -> K -> bool) (key : A -> K).
Hypothesis eqb_eq : forall a b, eqb a b = true <-> a = b.

Lemma drop_duplicates_from_subseq (seen : list K) (rows : list A) :
  Subseq (drop_duplicates_from eqb key seen rows) rows.
Proof.
  revert seen; induction rows as [|r t IH]; intros seen; simpl; [constructor|].
  destruct (existsb (eqb (key r)) seen); constructor; apply IH.
Qed.

Lemma drop_duplicates_from_unseen (seen : list K) (rows : list A) (o : A) :
  In o (drop_duplicates_from eqb key seen rows) -> ~ In (key o) seen.
Proof.
  revert seen; induction rows as [|r t IH]; intros seen; simpl; [tauto|].
  destruct (existsb (eqb (key r)) seen) eqn:E; [apply IH|].
  intros [<-|H].
  - intros Hin; apply (existsb_eqb_In eqb eqb_eq) in Hin; congruence.
  - apply IH in H; simpl in H; tauto.
Qed.

Lemma drop_duplicates_from_NoDup (seen : list K) (rows : list A) :
  NoDup (map key (drop_duplicates_from eqb key seen rows)).
Proof.
  revert seen; induction rows as [|r t IH]; intros seen; simpl; [constructor|].
  destruct (existsb (eqb (key r)) seen) eqn:E; [apply IH|].
  simpl; constructor; [|apply IH].
  intros Hin; apply in_map_iff in Hin as (o & Hk & Ho).
  apply drop_duplicates_from_unseen in Ho; simpl in Ho; intuition congruence.
Qed.

Lemma drop_duplicates_from_covers (seen : list K) (rows : list A) (r : A) :
  In r rows ->
  In (key r) seen \/ In (key r) (map key (drop_duplicates_from eqb key seen rows)).
Proof.
  revert seen; induction rows as [|x t IH]; intros seen; simpl; [tauto|].
  intros [->|H].
  - destruct (existsb (eqb (key r)) seen) eqn:E.
    + left; now apply (existsb_eqb_In eqb eqb_eq).
    + right; simpl; auto.
  - destruct (existsb (eqb (key x)) seen) eqn:E; [now apply IH|].
    destruct (IH (key x :: seen) H) as [[<-|Hs]|Hr]; simpl; auto.
Qed.

Lemma drop_duplicates_from_first (seen : list K) (rows : list A) (o : A) :
  In o (drop_duplicates_from eqb key seen rows) ->
  find (fun r => eqb (key r) (key o)) rows = Some o.
Proof.
  revert seen; induction rows as [|r t IH]; intros seen; simpl; [tauto|].
  destruct (existsb (eqb (key r)) seen) eqn:E.
  - intros H. pose proof (drop_duplicates_from_unseen _ _ _ H) as Hn.
    destruct (eqb (key r) (key o)) eqn:F; [|eapply IH; eauto].
    apply eqb_eq in F; rewrite <- F in Hn.
    apply (existsb_eqb_In eqb eqb_eq) in E; contradiction.
  - intros [<-|H]; [now rewrite eqb_refl'|].
    pose proof (drop_duplicates_from_unseen _ _ _ H) as Hn.
    destruct (eqb (key r) (key o)) eqn:F; [|eapply IH; eauto].
    apply eqb_eq in F; simpl in Hn; tauto.
Qed.

End DedupFacts.

Lemma Cell_eqb_eq (a b : Cell) : Cell_eqb a b = true <-> a = b.
Proof.
  destruct a as [| |s], b as [| |t]; simpl; try (split; congruence).
  rewrite String.eqb_eq; split; congruence.
Qed.

Lemma lstrip_spec (s : string) :
  exists p, s = (p ++ lstrip s)%string /\ all_space p = true /\
            starts_with_space (lstrip s) = false.
Proof.
  induction s as [|c s (p & Hs & Hp & Hl)]; simpl.
  - exists EmptyString; auto.
  - destruct (is_space c) eqn:E.
    + exists (String c p); simpl; rewrite E, Hp; repeat split; [congruence | exact Hl].
    + exists EmptyString; simpl; auto.
Qed.

Lemma rstrip_spec (s : string) :
  exists q, s = (rstrip s ++ q)%string /\ all_space q = true /\
            ends_with_space (rstrip s) = false.
Proof.
  induction s as [|c s (q & Hs & Hq & He)]; simpl.
  - exists EmptyString; auto.
  - destruct (rstrip s) as [|d r] eqn:R.
    + destruct (is_space c) eqn:E.
      * exists (String c q); simpl in *; rewrite E, Hq; repeat split; congruence.
      * exists q; simpl in *; repeat split; congruence.
    + exists q; repeat split; [simpl in *; congruence | exact Hq | exact He].
Qed.

Lemma rstrip_keeps_head (s : string) :
  starts_with_space s = false -> starts_with_space (rstrip s) = false.
Proof.
  destruct s as [|c s]; simpl; [auto|].
  intros E; destruct (rstrip s); [rewrite E|]; simpl; auto.
Qed.

Lemma strip_spec (s : string) : trimmed_form s (strip s).
Proof.
  unfold trimmed_form, strip.
  destruct (lstrip_spec s) as (p & Hs & Hp & Hl).
  destruct (rstrip_spec (lstrip s)) as (q & Ht & Hq & He).
  exists p, q; repeat split; auto.
  - now rewrite <- Ht.
  - now apply rstrip_keeps_head.
Qed.

Lemma is_space_lower_char (c : ascii) : is_space (lower_char c) = is_space c.
Proof. destruct c as [[] [] [] [] [] [] [] []]; vm_compute; reflexivity. Qed.

Lemma lower_lstrip (s : string) : lower (lstrip s) = lstrip (lower s).
Proof.
  induction s as [|c s IH]; simpl; [reflexivity|].
  rewrite is_space_lower_char; destruct (is_space c); [exact IH | reflexivity].
Qed.

Lemma lower_rstrip (s : string) : lower (rstrip s) = rstrip (lower s).
Proof.
  induction s as [|c s IH]; simpl; [reflexivity|].
  rewrite <- IH, is_space_lower_char.
  destruct (rstrip s) as [|d r]; simpl; [|reflexivity].
  destruct (is_space c); reflexivity.
Qed.

Lemma lower_strip (s : string) : lower (strip s) = strip (lower s).
Proof. unfold strip; now rewrite lower_rstrip, lower_lstrip. Qed.

Lemma clean_text_of_normalized (c : Cell) : normalized c (clean_text_of c).
Proof.
  destruct c as [| |s]; try reflexivity.
  unfold normalized, clean_text_of; cbn [isna str].
  split; [apply strip_spec | now rewrite lower_strip, lower_idem].
Qed.

Lemma Subseq_map {A B} (f : A -> B) (l l' : list A) :
  Subseq l l' -> Subseq (map f l) (map f l').
Proof. induction 1; simpl; constructor; auto. Qed.

(** What [clean_data] makes of a frame with one column [raw_text]. *)
Lemma clean_data_frame (rows : list RawRow) :
  exists out,
    clean_data (Frame rows) = Ok out /\
    Subseq (map raw_row out) rows /\
    NoDup (map (fun o => raw_text (raw_row o)) out) /\
    (forall r, In r rows -> exists o, In o out /\ raw_text (raw_row o) = raw_text r) /\
    (forall o, In o out ->
       find (fun r => Cell_eqb (raw_text r) (raw_text (raw_row o))) rows = Some (raw_row o)) /\
    (forall o, In o out ->
       normalized (raw_text (raw_row o)) (clean_text o) /\
       clean_text o = match raw_text (raw_row o) with
                      | Text s => strip (lower s)
                      | _ => EmptyString
                      end).
Proof.
  eexists; split; [reflexivity|].
  set (kept := drop_duplicates Cell_eqb raw_text rows).
  set (mk := fun r => {| raw_row := r; clean_text := clean_text_of (raw_text r) |}).
  assert (Hrows : map raw_row (map mk kept) = kept).
  { rewrite map_map; unfold mk; simpl; apply map_id. }
  split; [|split; [|split; [|split]]].
  - rewrite Hrows; apply drop_duplicates_from_subseq.
  - rewrite <- (map_map raw_row raw_text), Hrows.
    apply (drop_duplicates_from_NoDup Cell_eqb raw_text Cell_eqb_eq).
  - intros r Hr.
    destruct (drop_duplicates_from_covers Cell_eqb raw_text Cell_eqb_eq [] rows r Hr)
      as [[]|H].
    apply in_map_iff in H as (o & Ho & Hin).
    exists (mk o); split; [now apply in_map | exact Ho].
  - intros o Ho; apply in_map_iff in Ho as (r & <- & Hr); simpl.
    now apply (drop_duplicates_from_first Cell_eqb raw_text Cell_eqb_eq [] rows).
  - intros o Ho; apply in_map_iff in Ho as (r & <- & Hr); simpl.
    split; [apply clean_text_of_normalized | now destruct (raw_text r)].
Qed.

Lemma index_rows_cells (i : nat) (cells : list Cell) :
  map raw_text (index_rows i cells) = cells.
Proof.
  revert i; induction cells as [|c t IH]; intros i; simpl; [reflexivity|].
  now rewrite IH.
Qed.

Lemma index_rows_labels (i : nat) (cells : list Cell) :
  map label (index_rows i cells) = seq i (List.length cells).
Proof.
  revert i; induction cells as [|c t IH]; intros i; simpl; [reflexivity|].
  now rewrite IH.
Qed.

(** C5, as the code has it.  When no record of the sequence has a
    [raw_text] key the frame has no such column and [clean_data] raises
    [KeyError].  When some record has the key, the frame has one row per
    record, in order, a record without the key or with a null value getting
    a null cell; [clean_data] then returns rows of the frame in their
    original order, no two with the same [raw_text], one for every
    [raw_text] of the frame, each the first row of the frame with its
    [raw_text]; [clean_text] is empty for a null cell and otherwise the text
    in lower case without the white space at its ends. *)
Theorem clean_data_keeps_first_and_normalizes (version : Pandas) (l : list PyDict) :
  (existsb has_raw_text l = false ->
   clean_data (pd_DataFrame version l) = Raise KeyError) /\
  (existsb has_raw_text l = true ->
   exists rows out,
     pd_DataFrame version l = Frame rows /\
     map label rows = seq 0 (List.length l) /\
     map raw_text rows = raw_text_cells version l /\
     Forall2 (fun d c => match dict_get "raw_text" d with
                         | Some (Some s) => c = Text s
                         | _ => isna c = true
                         end) l (map raw_text rows) /\
     clean_data (Frame rows) = Ok out /\
     Subseq (map raw_row out) rows /\
     NoDup (map (fun o => raw_text (raw_row o)) out) /\
     (forall r, In r rows -> exists o, In o out /\ raw_text (raw_row o) = raw_text r) /\
     (forall o, In o out ->
        find (fun r => Cell_eqb (raw_text r) (raw_text (raw_row o))) rows
        = Some (raw_row o)) /\
     (forall o, In o out ->
        normalized (raw_text (raw_row o)) (clean_text o) /\
        clean_text o = match raw_text (raw_row o) with
                       | Text s => strip (lower s)
                       | _ => EmptyString
                       end)).
Proof.
  unfold pd_DataFrame; split; intros E; rewrite E; [reflexivity|].
  destruct (clean_data_frame (index_rows 0 (raw_text_cells version l)))
    as (out & H).
  exists (index_rows 0 (raw_text_cells version l)), out.
  split; [reflexivity|].
  split; [rewrite index_rows_labels; unfold raw_text_cells; now rewrite length_map|].
  split; [apply index_rows_cells|].
  split; [|exact H].
  rewrite index_rows_cells; unfold raw_text_cells.
  generalize (existsb holds_text l) as any_text; intros any_text.
  generalize (existsb (fun d => negb (has_raw_text d)) l) as any_missing; intros any_missing.
  clear; induction l as [|d l IH]; simpl; constructor; [|exact IH].
  unfold stored_cell; destruct (dict_get "raw_text" d) as [[s|]|]; try reflexivity.
  destruct version, any_text, any_missing; reflexivity.
Qed.

Lemma clean_data_keeps_first_and_normalizes_witness :
  clean_data (pd_DataFrame pandas_2
                [[("raw_text", Some " Fan BROKEN ")]; []; [("raw_text", Some " Fan BROKEN ")]])
  = Ok [ {| raw_row := {| label := 0; raw_text := Text " Fan BROKEN " |};
            clean_text := "fan broken" |};
         {| raw_row := {| label := 1; raw_text := NaN |}; clean_text := EmptyString |} ].
Proof.
  destruct (clean_data_keeps_first_and_normalizes pandas_2
              [[("raw_text", Some " Fan BROKEN ")]; [];
               [("raw_text", Some " Fan BROKEN ")]]) as [_ H].
  destruct (H eq_refl) as (rows & out & Hf & _ & _ & _ & Hc & _).
  rewrite Hf, Hc.
  vm_compute in Hf; injection Hf as <-.
  vm_compute in Hc; injection Hc as <-; reflexivity.
Defined.

(** C5, as stated, fails: a sequence whose records have no [raw_text] key
    is not given empty texts, [clean_data] raises [KeyError] and
    [process_complaints] returns [None]. *)
Lemma clean_data_fails_without_key :
  clean_data (pd_DataFrame pandas_2 [[]]) = Raise KeyError /\
  clean_data (pd_DataFrame pandas_3 [[]]) = Raise KeyError /\
  fst (process_complaints (no_files pandas_2) no_models (Some [[]]) None (const_tape 0))
  = Ok None.
Proof. repeat split. Qed.

(** Duplicates are told by the raw text, not by the cleaned one: two records
    that differ by case only are both kept, a repeated one is kept once, at
    its first place. *)
Example clean_data_sample :
  clean_data (pd_DataFrame pandas_2
                (batch_of ["Fan broken"; " fan BROKEN "; "Fan broken"; "x"]))
  = Ok [ {| raw_row := {| label := 0; raw_text := Text "Fan broken" |};
            clean_text := "fan broken" |};
         {| raw_row := {| label := 1; raw_text := Text " fan BROKEN " |};
            clean_text := "fan broken" |};
         {| raw_row := {| label := 3; raw_text := Text "x" |};
            clean_text := "x" |} ].
Proof. reflexivity. Qed.

(** A [None] beside a text and a missing key: kept apart by pandas 2, one
    NaN for pandas 3; without any text, one NaN for both; a column of
    [None] only keeps its [None]. *)
Example clean_data_null_cells_2 :
  clean_data (pd_DataFrame pandas_2
                [[("raw_text", None)]; [("raw_text", Some " A ")]; []; []])
  = Ok [ {| raw_row := {| label := 0; raw_text := PyNone |}; clean_text := EmptyString |};
         {| raw_row := {| label := 1; raw_text := Text " A " |}; clean_text := "a" |};
         {| raw_row := {| label := 2; raw_text := NaN |}; clean_text := EmptyString |} ].
Proof. reflexivity. Qed.

Example clean_data_null_cells_3 :
  clean_data (pd_DataFrame pandas_3
                [[("raw_text", None)]; [("raw_text", Some " A ")]; []; []])
  = Ok [ {| raw_row := {| label := 0; raw_text := NaN |}; clean_text := EmptyString |};
         {| raw_row := {| label := 1; raw_text := Text " A " |}; clean_text := "a" |} ].
Proof. reflexivity. Qed.

Example clean_data_only_null_cells (version : Pandas) :
  clean_data (pd_DataFrame version [[("raw_text", None)]; []])
  = Ok [ {| raw_row := {| label := 0; raw_text := NaN |}; clean_text := EmptyString |} ].
Proof. destruct version; reflexivity. Qed.

Example clean_data_only_none (version : Pandas) :
  clean_data (pd_DataFrame version [[("raw_text", None)]; [("raw_text", None)]])
  = Ok [ {| raw_row := {| label := 0; raw_text := PyNone |}; clean_text := EmptyString |} ].
Proof. destruct version; reflexivity. Qed.

(** ** The orchestrator *)

Lemma process_body_eq (env : Env) (self : Self) (data : option (list PyDict))
  (file_path : option string) (g : Rng) :
  fst (process_body env self data file_path g)
  = match load env data file_path with
    | Ok df =>
        match clean_data df with
        | Ok df1 => Ok (dashboard_of self (toned self df1 g))
        | Raise e => Raise e
        end
    | Raise e => Raise e
    end.
Proof.
  unfold process_body, toned.
  destruct (load env data file_path) as [df|e]; [|reflexivity].
  destruct (clean_data df) as [df1|e]; [|reflexivity].
  unfold bind.
  destruct (classify_complaints df1 g) as [df2 g1]; cbn [fst snd].
  destruct (analyze_sentiment self df2 g1) as [df3 g2]; reflexivity.
Qed.

Lemma process_complaints_eq (env : Env) (self : Self) (data : option (list PyDict))
  (file_path : option string) (g : Rng) :
  fst (process_complaints env self data file_path g)
  = match fst (process_body env self data file_path g) with
    | Ok d => Ok (Some d)
    | Raise _ => Ok None
    end.
Proof.
  unfold process_complaints, try_except.
  destruct (process_body env self data file_path g) as [[d|e] g']; reflexivity.
Qed.

Lemma load_data (env : Env) (data : option (list PyDict)) :
  load env data None
  = match data with
    | Some ((_ :: _) as l) => Ok (pd_DataFrame (pandas env) l)
    | _ => Raise ValueError
    end.
Proof. reflexivity. Qed.

Lemma clean_data_eq (version : Pandas) (l : list PyDict) :
  clean_data (pd_DataFrame version l)
  = if existsb has_raw_text l then Ok (cleaned version l) else Raise KeyError.
Proof. unfold pd_DataFrame; now destruct (existsb has_raw_text l). Qed.

Lemma toned_rows (self : Self) (df1 : list CleanRow) (g : Rng) :
  map (fun r => clean_row (class_row r)) (toned self df1 g) = df1.
Proof.
  unfold toned.
  rewrite <- (map_map class_row clean_row).
  now rewrite analyze_sentiment_rows, classify_complaints_rows.
Qed.

Lemma toned_length (self : Self) (df1 : list CleanRow) (g : Rng) :
  List.length (toned self df1 g) = List.length df1.
Proof.
  rewrite <- (toned_rows self df1 g) at 2; now rewrite length_map.
Qed.

Lemma toned_texts (self : Self) (df1 : list CleanRow) (g : Rng) :
  map text_of (toned self df1 g) = map clean_text df1.
Proof.
  rewrite <- (toned_rows self df1 g) at 2; now rewrite map_map.
Qed.

(** A call that returns a dashboard loaded a frame with one column
    [raw_text], and the dashboard is made of its rows without duplicates. *)
Lemma process_complaints_loaded (env : Env) (self : Self) (data : option (list PyDict))
  (file_path : option string) (g : Rng) (d : Dashboard) :
  fst (process_complaints env self data file_path g) = Ok (Some d) ->
  exists rows,
    load env data file_path = Ok (Frame rows) /\
    d = dashboard_of self
          (toned self
             (map (fun r => {| raw_row := r; clean_text := clean_text_of (raw_text r) |})
                  (drop_duplicates Cell_eqb raw_text rows)) g).
Proof.
  rewrite process_complaints_eq, process_body_eq.
  destruct (load env data file_path) as [[rows| |]|e]; try discriminate.
  cbn [clean_data]; intros H; injection H as <-.
  exists rows; split; reflexivity.
Qed.

Lemma Subseq_In {A} (l l' : list A) (x : A) : Subseq l l' -> In x l -> In x l'.
Proof. induction 1; simpl; intuition. Qed.

(** The raw texts left by [drop_duplicates] are those of the frame, each
    once. *)
Lemma drop_duplicates_distinct (rows : list RawRow) :
  let kept := map raw_text (drop_duplicates Cell_eqb raw_text rows) in
  NoDup kept /\ forall c, In c kept <-> In c (map raw_text rows).
Proof.
  split; [apply (drop_duplicates_from_NoDup Cell_eqb raw_text Cell_eqb_eq)|].
  intros c; split; intros H.
  - revert H; apply Subseq_In, Subseq_map, drop_duplicates_from_subseq.
  - apply in_map_iff in H as (r & <- & Hr).
    destruct (drop_duplicates_from_covers Cell_eqb raw_text Cell_eqb_eq [] rows r Hr)
      as [[]|H]; exact H.
Qed.

(** Where the cells of a loaded frame come from. *)
Lemma load_frame (env : Env) (data : option (list PyDict)) (file_path : option string)
  (rows : list RawRow) :
  load env data file_path = Ok (Frame rows) ->
  match file_path with
  | Some (String c p) =>
      exists table, read_csv env (String c p) = Ok table /\
                    map raw_text rows = map csv_cell (csv_first_column table)
  | _ => exists l, data = Some l /\ map raw_text rows = raw_text_cells (pandas env) l
  end.
Proof.
  assert (D : forall l, Ok (pd_DataFrame (pandas env) l) = Ok (Frame rows) ->
                        map raw_text rows = raw_text_cells (pandas env) l).
  { intros l; unfold pd_DataFrame.
    destruct (existsb has_raw_text l); [|discriminate].
    intros H.
    assert (E : rows = index_rows 0 (raw_text_cells (pandas env) l)) by congruence.
    rewrite E; apply index_rows_cells. }
  unfold load; destruct file_path as [[|c p]|].
  - destruct data as [[|x l]|]; try discriminate.
    intros H; exists (x :: l); split; [reflexivity | now apply D].
  - destruct (read_csv env (String c p)) as [table|e]; [|discriminate].
    intros H; exists table; split; [reflexivity|].
    destruct (csv_columns table) as [|first others]; [discriminate|].
    destruct (mem "raw_text" others); [discriminate|].
    assert (E : rows = index_rows 0 (map csv_cell (csv_first_column table)))
      by congruence.
    rewrite E; apply index_rows_cells.
  - destruct data as [[|x l]|]; try discriminate.
    intros H; exists (x :: l); split; [reflexivity | now apply D].
Qed.

(** ** The dashboard *)

(** C1. Whenever [process_complaints] returns a dashboard, the counts by
    category, by sentiment and by urgency each add up to [total_complaints],
    and [total_complaints] is the number of distinct values in the column
    [raw_text] of the frame the call loaded: the cells stored for the
    records of [data], or the first column of the file. *)
Theorem dashboard_counts_sum_to_total (env : Env) (self : Self)
  (data : option (list PyDict)) (file_path : option string) (g : Rng) (d : Dashboard) :
  fst (process_complaints env self data file_path g) = Ok (Some d) ->
  sum_values (complaint_volume_by_category d) = total_complaints d /\
  sum_values (sentiment_overview d) = total_complaints d /\
  sum_values (urgency_distribution d) = total_complaints d /\
  exists cells distinct,
    loaded_cells env data file_path = Some cells /\
    match file_path with
    | Some (String c p) =>
        exists table, read_csv env (String c p) = Ok table /\
                      cells = map csv_cell (csv_first_column table)
    | _ => exists l, data = Some l /\ cells = raw_text_cells (pandas env) l
    end /\
    NoDup distinct /\
    (forall c, In c distinct <-> In c cells) /\
    total_complaints d = List.length distinct.
Proof.
  intros H; apply process_complaints_loaded in H as (rows & Hl & ->).
  unfold dashboard_of; cbn [total_complaints complaint_volume_by_category
                             sentiment_overview urgency_distribution].
  rewrite !sum_values_value_counts, !length_map.
  repeat split.
  exists (map raw_text rows), (map raw_text (drop_duplicates Cell_eqb raw_text rows)).
  split; [unfold loaded_cells; now rewrite Hl|].
  destruct (drop_duplicates_distinct rows) as [Hn Hi].
  split; [|split; [exact Hn | split; [exact Hi|]]].
  - now apply load_frame.
  - now rewrite toned_length, !length_map.
Qed.

Lemma dashboard_counts_sum_to_total_witness :
  exists d,
    fst (process_complaints (no_files pandas_2) no_models
           (Some (batch_of ["fan broken"; "no water"; "fan broken"])) None counting_tape)
    = Ok (Some d) /\
    total_complaints d = 2 /\
    sum_values (complaint_volume_by_category d) = total_complaints d /\
    sum_values (sentiment_overview d) = total_complaints d /\
    sum_values (urgency_distribution d) = total_complaints d.
Proof.
  eexists; split; [vm_compute; reflexivity|].
  split; [reflexivity|].
  match goal with
  | |- sum_values (complaint_volume_by_category ?d) = _ /\ _ =>
      destruct (dashboard_counts_sum_to_total (no_files pandas_2) no_models
                  (Some (batch_of ["fan broken"; "no water"; "fan broken"])) None
                  counting_tape d) as (H1 & H2 & H3 & _)
  end; [vm_compute; reflexivity | auto].
Defined.

(** A [None] and a missing key without any text in the batch: one NaN, one
    complaint, under both versions of pandas. *)
Example null_batch_is_one_complaint (version : Pandas) :
  exists d,
    fst (process_complaints (no_files version) no_models
           (Some [[("raw_text", None)]; []]) None (const_tape 0)) = Ok (Some d) /\
    total_complaints d = 1 /\
    map p_raw_text (processed_complaints d) = [NaN] /\
    map p_clean_text (processed_complaints d) = [EmptyString].
Proof.
  destruct version; (eexists; split; [vm_compute; reflexivity | repeat split]).
Qed.

(** A file with three rows, two of them the same text: two complaints. *)
Example dashboard_of_a_file :
  exists d,
    fst (process_complaints (one_file pandas_2 "weekly.csv" weekly_csv) no_models
           None (Some "weekly.csv") (const_tape 1)) = Ok (Some d) /\
    total_complaints d = 2 /\
    map p_clean_text (processed_complaints d) = ["no water in block c"; EmptyString] /\
    complaint_volume_by_category d = [(Hostel, 1); (Mess, 1)].
Proof. eexists; split; [vm_compute; reflexivity | repeat split]. Qed.



(** The empty batch at the endpoint: the status 400 raised by the handler is
    caught by its own [except Exception] clause and leaves as a 500. *)
Lemma analyze_complaints_batch_empty (env : Env) (self : Self) (g : Rng) :
  analyze_complaints_batch env self [] g = (HTTPException 500, g).
Proof. reflexivity. Qed.

(** C9. [process_complaints] never raises: whatever [data] and [file_path]
    are, the call returns, and it returns [None] exactly when the body of
    its [try] block raised.  The body raises whatever the loading of the
    frame raises ([ValueError] when neither argument is given, the
    exception of [pd.read_csv] when the file cannot be read, [IndexError]
    for a table without columns) and whatever [clean_data] raises on the
    frame; each time the call returns [None]. *)
Theorem process_complaints_never_raises (env : Env) (self : Self)
  (data : option (list PyDict)) (file_path : option string) (g : Rng) :
  (exists o, fst (process_complaints env self data file_path g) = Ok o /\
             (o = None <->
              exists e, fst (process_body env self data file_path g) = Raise e)) /\
  (forall e, load env data file_path = Raise e ->
             fst (process_body env self data file_path g) = Raise e /\
             fst (process_complaints env self data file_path g) = Ok None) /\
  (forall df e, load env data file_path = Ok df -> clean_data df = Raise e ->
                fst (process_body env self data file_path g) = Raise e /\
                fst (process_complaints env self data file_path g) = Ok None) /\
  fst (process_body env self None None g) = Raise ValueError /\
  fst (process_complaints env self None None g) = Ok None /\
  (forall c p e, read_csv env (String c p) = Raise e ->
                 fst (process_body env self data (Some (String c p)) g) = Raise e /\
                 fst (process_complaints env self data (Some (String c p)) g) = Ok None).
Proof.
  split; [|split; [|split; [|split; [|split]]]].
  - rewrite process_complaints_eq.
    destruct (fst (process_body env self data file_path g)) as [d|e].
    + exists (Some d); split; [reflexivity|].
      split; [discriminate | intros (e & H); discriminate].
    + exists None; split; [reflexivity|].
      split; [intros _; now exists e | reflexivity].
  - intros e H; rewrite process_complaints_eq, process_body_eq, H; auto.
  - intros df e H1 H2; rewrite process_complaints_eq, process_body_eq, H1, H2; auto.
  - reflexivity.
  - reflexivity.
  - intros c p e H.
    rewrite process_complaints_eq, process_body_eq; unfold load; rewrite H; auto.
Qed.

Lemma process_complaints_never_raises_witness :
  read_csv (no_files pandas_3) "weekly.csv" = Raise FileNotFoundError /\
  fst (process_complaints (no_files pandas_3) no_models (Some two_complaints)
         (Some "weekly.csv") (const_tape 0)) = Ok None.
Proof.
  split; [reflexivity|].
  destruct (process_complaints_never_raises (no_files pandas_3) no_models
              (Some two_complaints) (Some "weekly.csv") (const_tape 0))
    as (_ & _ & _ & _ & _ & H).
  exact (proj2 (H "w"%char "eekly.csv" FileNotFoundError eq_refl)).
Defined.

(** A file that cannot be read, and a file whose second column is labelled
    [raw_text] beside the renamed first one. *)
Example process_complaints_bad_files :
  fst (process_complaints (no_files pandas_2) no_models None (Some "weekly.csv")
         (const_tape 0)) = Ok None /\
  fst (process_complaints
         (one_file pandas_2 "weekly.csv"
            {| csv_columns := ["id"; "raw_text"]; csv_first_column := [Some "1"] |})
         no_models None (Some "weekly.csv") (const_tape 0)) = Ok None.
Proof. split; reflexivity. Qed.

(** ** The tone estimator *)

(** C7, as the code has it.  Without a sentiment pipeline the labels are
    drawn: the sentiment of row [i] is fixed by draw [i] and its urgency by
    draw [n + i], where [n] is the number of rows; the texts play no part. *)
Theorem fallback_tone_is_drawn (self : Self) (df : list ClassRow) (g : Rng) :
  _sentiment_pipeline self = None ->
  let out := fst (analyze_sentiment self df g) in
  let n := List.length df in
  map class_row out = df /\
  map sentiment out
  = map (fun i => nth (tape g (drawn g + i) mod 3)
                      ["Negative"; "Neutral"; "Positive"] "Negative") (seq 0 n) /\
  map urgency out
  = map (fun i => nth (tape g (drawn g + n + i) mod 3) [High; Medium; Low] High) (seq 0 n).
Proof.
  intros Hs out n.
  destruct (analyze_sentiment_columns self df g) as (H1 & H2 & H3).
  fold out in H1, H2, H3.
  unfold sentiment_column, _get_sentiment_pipeline in H2, H3.
  rewrite Hs in H2, H3.
  rewrite choices_eq in H2, H3; cbn [fst snd] in H2, H3.
  rewrite choices_eq in H3; cbn [fst snd tape drawn] in H3.
  repeat split; assumption.
Qed.

Lemma fallback_tone_is_drawn_witness :
  map sentiment (fst (analyze_sentiment no_models [urgent_row] (const_tape 2))) = ["Positive"] /\
  map urgency (fst (analyze_sentiment no_models [urgent_row] (const_tape 2))) = [Low].
Proof.
  destruct (fallback_tone_is_drawn no_models [urgent_row] (const_tape 2) eq_refl)
    as (_ & H2 & H3).
  split; [rewrite H2 | rewrite H3]; reflexivity.
Defined.

(** C7, as stated, fails: a text with two urgency markers and no positive
    marker is labelled Positive and Low when the tape says so, in place of
    Negative and High. *)
Lemma fallback_tone_ignores_markers :
  _sentiment_pipeline no_models = None /\
  any_in ["urgent"; "immediately"; "emergency"; "asap"] (clean_text (clean_row urgent_row)) = true /\
  any_in ["thank"; "good"; "great"; "resolved"] (clean_text (clean_row urgent_row)) = false /\
  map (fun r => (sentiment r, urgency r))
      (fst (analyze_sentiment no_models [urgent_row] (const_tape 2)))
  = [("Positive", Low)].
Proof. repeat split. Qed.

(** ** Runs of the pipeline *)

Lemma top_issues_eq (self : Self) (df : list Complaint) :
  t_top_recurring_issues (extract_trends self df)
  = map render_issue
        (most_common String.eqb 3
           (filter keep_word (_tokenize (join " " (map text_of df))))).
Proof. reflexivity. Qed.

(** C8, as the code has it.  Two runs on the same batch, from any two states
    of the generator, agree on failure or success, on [total_complaints], on
    the raw and cleaned texts of the processed records and on
    [top_recurring_issues]: these do not depend on the draws. *)
Theorem process_complaints_draw_free_part (env : Env) (self : Self)
  (data : option (list PyDict)) (file_path : option string) (g1 g2 : Rng) :
  match fst (process_complaints env self data file_path g1),
        fst (process_complaints env self data file_path g2) with
  | Ok (Some d1), Ok (Some d2) =>
      total_complaints d1 = total_complaints d2 /\
      top_recurring_issues d1 = top_recurring_issues d2 /\
      map p_raw_text (processed_complaints d1) = map p_raw_text (processed_complaints d2) /\
      map p_clean_text (processed_complaints d1) = map p_clean_text (processed_complaints d2)
  | Ok None, Ok None => True
  | _, _ => False
  end.
Proof.
  rewrite !process_complaints_eq, !process_body_eq.
  destruct (load env data file_path) as [df|e]; [|exact I].
  destruct (clean_data df) as [df1|e]; [|exact I].
  unfold dashboard_of;
    cbn [total_complaints top_recurring_issues processed_complaints].
  rewrite !top_issues_eq, !toned_texts, !toned_length, !map_map.
  repeat split.
  - change (map (fun r => raw_text (raw_row (clean_row (class_row r)))) (toned self df1 g1)
            = map (fun r => raw_text (raw_row (clean_row (class_row r)))) (toned self df1 g2)).
    rewrite <- !(map_map (fun r => clean_row (class_row r)) (fun r => raw_text (raw_row r))).
    now rewrite !toned_rows.
  - change (map text_of (toned self df1 g1) = map text_of (toned self df1 g2)).
    now rewrite !toned_texts.
Qed.

(** C8, as stated, fails: with no collaborator at all, a second run on the
    same batch, made from the state in which the first run left the
    generator, returns another dashboard. *)
Lemma second_run_differs :
  let batch := Some (batch_of ["The AC in the lecture hall 101 is broken."]) in
  let run1 := process_complaints (no_files pandas_2) no_models batch None counting_tape in
  let run2 := process_complaints (no_files pandas_2) no_models batch None (snd run1) in
  fst run1 <> fst run2.
Proof. vm_compute; discriminate. Qed.

(** ** The summary *)

Lemma filter_all {A} (l : list A) : filter (fun _ => true) l = l.
Proof. induction l; simpl; congruence. Qed.

Lemma Category_eqb_eq (a b : Category) : Category_eqb a b = true <-> a = b.
Proof. destruct a, b; simpl; split; congruence. Qed.

Lemma Urgency_eqb_eq (a b : Urgency) : Urgency_eqb a b = true <-> a = b.
Proof. destruct a, b; simpl; split; congruence. Qed.

(** The head of [value_counts] is a most frequent value. *)
Lemma value_counts_head {K} (eqb : K -> K -> bool) (l : list K) (k : K) (n : nat)
  (rest : list (K * nat)) :
  (forall a b, eqb a b = true <-> a = b) ->
  value_counts eqb l = (k, n) :: rest ->
  In k l /\ n = occurrences eqb k l /\ forall k', occurrences eqb k' l <= n.
Proof.
  intros Heq Hv.
  pose proof (ranking_of_Counter eqb Heq (fun _ => true) l) as R.
  rewrite filter_all in R; fold (value_counts eqb l) in R; rewrite Hv in R.
  destruct R as (Hnd & Hin & Hcnt & Hs).
  split; [apply Hin; simpl; auto|].
  split; [apply Hcnt; simpl; auto|].
  intros k'.
  destruct (existsb (eqb k') l) eqn:E.
  - apply (existsb_eqb_In eqb Heq) in E. apply Hin in E.
    apply in_map_iff in E as ([k'' m] & Hk & Hm); simpl in Hk; subst k''.
    rewrite <- (Hcnt _ _ Hm).
    destruct Hm as [Hm|Hm]; [injection Hm as <- <-; lia|].
    inversion Hs as [|? ? _ Hall]; subst.
    rewrite Forall_forall in Hall; specialize (Hall _ Hm).
    apply ranked_before_count in Hall; simpl in Hall; lia.
  - unfold occurrences.
    replace (filter (eqb k') l) with (@nil K); [simpl; lia|].
    symmetry; clear -E. induction l as [|x l IH]; simpl in *; [reflexivity|].
    apply orb_false_iff in E as [E1 E2]; rewrite E1; auto.
Qed.

(** The fallback summary names the number of rows and a most frequent
    category of the batch. *)
Lemma fallback_summary_names_top_category (df : list Complaint) :
  let cats := map (fun r => category (class_row r)) df in
  (df = [] /\ _generate_fallback_summary df = fallback_template 0 "general") \/
  (exists c, In c cats /\
     (forall c', occurrences Category_eqb c' cats <= occurrences Category_eqb c cats) /\
     _generate_fallback_summary df
     = fallback_template (List.length df) (lower (Category_str c))).
Proof.
  intros cats; unfold _generate_fallback_summary; fold cats.
  destruct (value_counts Category_eqb cats) as [|[c n] rest] eqn:E.
  - left.
    assert (Hl : List.length cats = 0)
      by (rewrite <- (sum_values_value_counts Category_eqb), E; reflexivity).
    unfold cats in Hl; rewrite length_map in Hl.
    destruct df; [split; reflexivity | discriminate].
  - right; exists c.
    destruct (value_counts_head Category_eqb cats c n rest Category_eqb_eq E)
      as (Hin & Hn & Hmax).
    split; [exact Hin|]; split; [|reflexivity].
    intros c'; rewrite <- Hn; apply Hmax.
Qed.

(** C10. When the clean texts joined by blanks make 50 characters or fewer,
    the summarizer is not consulted, loaded or not: the weekly summary is
    the fallback sentence, which gives the number of records and names, in
    lower case, a category that no other category of the batch outnumbers
    ([general] for an empty frame). *)
Theorem short_batch_gets_fallback_summary (self : Self) (df : list Complaint) :
  String.length (join " " (map text_of df)) <= 50 ->
  let cats := map (fun r => category (class_row r)) df in
  t_weekly_summary (extract_trends self df) = _generate_fallback_summary df /\
  exists name,
    t_weekly_summary (extract_trends self df)
    = "Analysis of " ++ of_nat (List.length df)
      ++ " complaints shows primary concerns in " ++ name
      ++ " category. Key issues include maintenance, quality control, and service delivery. "
      ++ "Immediate attention required for high-priority complaints." /\
    match df with
    | [] => name = "general"
    | _ :: _ =>
        exists c, name = lower (Category_str c) /\ In c cats /\
                  forall c', occurrences Category_eqb c' cats
                             <= occurrences Category_eqb c cats
    end.
Proof.
  intros H cats.
  assert (E : t_weekly_summary (extract_trends self df) = _generate_fallback_summary df).
  { unfold extract_trends; cbn [t_weekly_summary].
    destruct (_get_summarizer_pipeline self) as [summarizer|]; [|reflexivity].
    apply Nat.ltb_ge in H; now rewrite H. }
  split; [exact E|]; rewrite E.
  destruct (fallback_summary_names_top_category df) as [[-> F]|(c & H1 & H2 & H3)].
  - exists "general"; split; [exact F | reflexivity].
  - exists (lower (Category_str c)); split; [exact H3|].
    destruct df as [|r df]; [destruct H1|].
    exists c; auto.
Qed.

Lemma short_batch_gets_fallback_summary_witness :
  t_weekly_summary (extract_trends with_summarizer
                      [toned_row "fan broken" Hostel "Negative" High;
                       toned_row "cold food" Mess "Negative" Low;
                       toned_row "no water" Hostel "Neutral" Low])
  = fallback_template 3 "hostel".
Proof.
  destruct (short_batch_gets_fallback_summary with_summarizer
              [toned_row "fan broken" Hostel "Negative" High;
               toned_row "cold food" Mess "Negative" Low;
               toned_row "no water" Hostel "Neutral" Low]) as [E _].
  - vm_compute; repeat constructor.
  - rewrite E; reflexivity.
Defined.

(** ** The trend extractor *)

Lemma filter_none {A} (f : A -> bool) (l : list A) :
  forallb (fun x => negb (f x)) l = true -> filter f l = [].
Proof.
  induction l as [|x l IH]; simpl; [reflexivity|].
  intros H; apply andb_true_iff in H as [Hx Hl].
  apply negb_true_iff in Hx; rewrite Hx; auto.
Qed.

Lemma keep_word_stopword (w : string) : mem w stopwords = true -> keep_word w = false.
Proof.
  intros H; unfold keep_word; rewrite H; simpl.
  now rewrite andb_false_r.
Qed.

Lemma append_empty (s : string) : (s ++ EmptyString)%string = s.
Proof. induction s as [|c s IH]; simpl; congruence. Qed.

Lemma append_snoc (cur t : string) (c : ascii) :
  ((cur ++ String c EmptyString) ++ t)%string = (cur ++ String c t)%string.
Proof. induction cur as [|x cur IH]; simpl; congruence. Qed.

Lemma all_word_snoc (cur : string) (c : ascii) :
  all_word cur = true -> is_word c = true ->
  all_word (cur ++ String c EmptyString) = true.
Proof.
  induction cur as [|x cur IH]; simpl; intros H W; [now rewrite W|].
  apply andb_true_iff in H as [Hx H]; rewrite Hx; simpl; auto.
Qed.

Lemma word_runs_skip (c : ascii) (t : string) (toks : list string) :
  is_word c = false -> word_runs t toks -> word_runs (String c t) toks.
Proof.
  intros W H; inversion H as [sep Hs|sep tok rest toks' Hs Hn Ht Hr Hw]; subst.
  - constructor; simpl; now rewrite W.
  - change (String c (sep ++ tok ++ rest))%string
      with (String c sep ++ tok ++ rest)%string.
    constructor; auto; simpl; now rewrite W.
Qed.

(** [findall_words] returns the maximal runs of word characters. *)
Lemma findall_words_runs (s cur : string) :
  all_word cur = true -> word_runs (cur ++ s) (findall_words s cur).
Proof.
  revert cur; induction s as [|c s IH]; intros cur Hcur; simpl.
  - rewrite append_empty; destruct cur as [|x cur]; simpl.
    + now constructor.
    + rewrite <- (append_empty (String x cur)) at 1.
      apply (word_runs_next EmptyString (String x cur) EmptyString []);
        [reflexivity | discriminate | exact Hcur | reflexivity | now constructor].
  - destruct (is_word c) eqn:W.
    + rewrite <- append_snoc; apply IH; now apply all_word_snoc.
    + specialize (IH EmptyString eq_refl); simpl in IH.
      destruct cur as [|x cur]; simpl.
      * now apply word_runs_skip.
      * apply (word_runs_next EmptyString (String x cur) (String c s));
          [reflexivity | discriminate | exact Hcur | exact W | now apply word_runs_skip].
Qed.

Lemma findall_words_no_word (sep cur : string) :
  no_word sep = true -> findall_words sep cur = flush cur.
Proof.
  revert cur; induction sep as [|c sep IH]; intros cur; simpl; [reflexivity|].
  intros H; apply andb_true_iff in H as [Hc Hs]; apply negb_true_iff in Hc.
  rewrite Hc, (IH EmptyString Hs); apply app_nil_r.
Qed.

Lemma findall_words_skip (sep s : string) :
  no_word sep = true ->
  findall_words (sep ++ s) EmptyString = findall_words s EmptyString.
Proof.
  induction sep as [|c sep IH]; simpl; [reflexivity|].
  intros H; apply andb_true_iff in H as [Hc Hs]; apply negb_true_iff in Hc.
  rewrite Hc; now apply IH.
Qed.

Lemma findall_words_run (tok rest cur : string) :
  all_word tok = true -> starts_with_word rest = false ->
  findall_words (tok ++ rest) cur
  = (flush (cur ++ tok) ++ findall_words rest EmptyString)%list.
Proof.
  revert cur; induction tok as [|x tok IH]; intros cur Ht Hr; simpl.
  - rewrite append_empty.
    destruct rest as [|c rest]; simpl; [now rewrite app_nil_r|].
    simpl in Hr; now rewrite Hr.
  - simpl in Ht; apply andb_true_iff in Ht as [Hx Ht].
    rewrite Hx, (IH _ Ht Hr), append_snoc; reflexivity.
Qed.

(** The runs of a text are those [findall_words] returns, and no others. *)
Lemma word_runs_unique (s : string) (toks : list string) :
  word_runs s toks -> toks = findall_words s EmptyString.
Proof.
  induction 1 as [sep Hs|sep tok rest toks Hs Hn Ht Hr Hw IH].
  - now rewrite findall_words_no_word.
  - rewrite (findall_words_skip sep _ Hs), (findall_words_run tok rest _ Ht Hr).
    simpl; destruct tok; [congruence|]; simpl; now rewrite IH.
Qed.

(** C6. [extract_trends] returns at most three phrases.  The tokens are the
    maximal runs of word characters of the lower-cased texts joined by
    blanks; those that are alphanumeric, longer than two characters and no
    stopword are ranked by decreasing number of occurrences, those of equal
    count by first occurrence in the token sequence; the phrases render, in
    order, the first three entries of this ranking.  An empty frame and a
    text made of stopwords give no phrase. *)
Theorem extract_trends_top_issues (self : Self) (df : list Complaint) :
  let text := join " " (map text_of df) in
  let issues := t_top_recurring_issues (extract_trends self df) in
  exists tokens ranked,
    word_runs (lower text) tokens /\
    frequency_ranking String.eqb tokens
      (filter (fun w => isalnum w && negb (mem w stopwords) && (2 <? String.length w))
              tokens) ranked /\
    issues = map (fun wc => "Frequent topic: " ++ dquote ++ capitalize (fst wc) ++ dquote
                            ++ " (mentioned " ++ of_nat (snd wc) ++ " times)")
                 (firstn 3 ranked) /\
    List.length issues <= 3 /\
    (df = [] -> issues = []) /\
    (forallb (fun w => mem w stopwords) tokens = true -> issues = []).
Proof.
  intros text issues.
  set (tokens := _tokenize text).
  set (words := filter keep_word tokens).
  assert (E : issues = map render_issue (firstn 3 (sort_desc (Counter String.eqb words))))
    by reflexivity.
  exists tokens, (sort_desc (Counter String.eqb words)).
  split; [apply (findall_words_runs (lower text) EmptyString eq_refl)|].
  split; [apply (ranking_of_Counter String.eqb String.eqb_eq keep_word tokens)|].
  split; [exact E|].
  split; [rewrite E, length_map; apply firstn_le_length|].
  split.
  - intros ->; reflexivity.
  - intros H; rewrite E.
    replace words with (@nil string); [reflexivity|].
    symmetry; apply filter_none.
    rewrite forallb_forall in *; intros w Hw.
    now rewrite keep_word_stopword by auto.
Qed.

Lemma extract_trends_top_issues_witness :
  t_top_recurring_issues
    (extract_trends no_models [toned_row "it is what it is" Mess "Negative" Low]) = [].
Proof.
  destruct (extract_trends_top_issues no_models
              [toned_row "it is what it is" Mess "Negative" Low])
    as (tokens & ranked & Hr & _ & _ & _ & _ & H).
  apply H.
  rewrite (word_runs_unique _ _ Hr); reflexivity.
Defined.

(** Beyond ASCII: U+00E9 is a word character and the small form of U+00C9;
    U+00A0 and U+0085 are white space. *)
Example tokenize_accents :
  _tokenize ("Caf" ++ String "233"%char " WIFI_2: down")
  = [("caf" ++ String "233"%char EmptyString)%string; "wifi_2"; "down"].
Proof. reflexivity. Qed.

Example lower_strip_accents :
  lower ("CAF" ++ String "201"%char EmptyString)
  = ("caf" ++ String "233"%char EmptyString)%string /\
  strip (String "160"%char ("no water" ++ String "133"%char " ")) = "no water".
Proof. split; reflexivity. Qed.

(** The batch of the ranking example: three, two and one occurrences. *)
Example extract_trends_ranked :
  t_top_recurring_issues
    (extract_trends no_models
       [toned_row "water leak water leak" Hostel "Negative" High;
        toned_row "leak issue" Hostel "Negative" Low])
  = [ "Frequent topic: " ++ dquote ++ "Leak" ++ dquote ++ " (mentioned 3 times)";
      "Frequent topic: " ++ dquote ++ "Water" ++ dquote ++ " (mentioned 2 times)";
      "Frequent topic: " ++ dquote ++ "Issue" ++ dquote ++ " (mentioned 1 times)" ].
Proof. reflexivity. Qed.

(** Equal counts: the token met first comes first; a fourth token is left
    out, and so are the stopwords, the short tokens and those with an
    underscore. *)
Example extract_trends_ties :
  t_top_recurring_issues
    (extract_trends no_models
       [toned_row "the pump and the_fan: ac, wifi, pump!" Hostel "Negative" High;
        toned_row "wifi is down; door lock; LOCK door" Hostel "Negative" Low])
  = [ "Frequent topic: " ++ dquote ++ "Pump" ++ dquote ++ " (mentioned 2 times)";
      "Frequent topic: " ++ dquote ++ "Wifi" ++ dquote ++ " (mentioned 2 times)";
      "Frequent topic: " ++ dquote ++ "Door" ++ dquote ++ " (mentioned 2 times)" ].
Proof. reflexivity. Qed.

Example extract_trends_stopwords_only :
  t_top_recurring_issues
    (extract_trends no_models [toned_row "it is what it is" Mess "Negative" Low]) = [].
Proof. reflexivity. Qed.

(** * Further properties of the pipeline *)

(** ** What a returned dashboard is made of *)

Lemma process_complaints_returns (env : Env) (self : Self) (data : option (list PyDict))
  (g : Rng) (d : Dashboard) :
  fst (process_complaints env self data None g) = Ok (Some d) ->
  exists l, data = Some l /\ l <> [] /\ existsb has_raw_text l = true /\
            d = dashboard_of self (toned self (cleaned (pandas env) l) g).
Proof.
  rewrite process_complaints_eq, process_body_eq, load_data.
  destruct data as [[|x l]|]; try discriminate.
  remember (x :: l) as batch eqn:Hb.
  rewrite clean_data_eq.
  destruct (existsb has_raw_text batch) eqn:E; [|discriminate].
  intros H; injection H as <-.
  exists batch; split; [reflexivity|].
  split; [subst batch; discriminate|].
  split; [exact E | reflexivity].
Qed.

(** Whatever the source of the rows, a returned dashboard is the dashboard
    of the rows the three stages produced. *)
Lemma process_complaints_dashboard (env : Env) (self : Self) (data : option (list PyDict))
  (file_path : option string) (g : Rng) (d : Dashboard) :
  fst (process_complaints env self data file_path g) = Ok (Some d) ->
  exists df df1,
    load env data file_path = Ok df /\ clean_data df = Ok df1 /\
    d = dashboard_of self (toned self df1 g).
Proof.
  rewrite process_complaints_eq, process_body_eq.
  destruct (load env data file_path) as [df|e]; [|discriminate].
  destruct (clean_data df) as [df1|e] eqn:E; [|discriminate].
  intros H; injection H as <-.
  exists df, df1; auto.
Qed.

Lemma processed_of_dashboard (self : Self) (df3 : list Complaint) :
  map p_category (processed_complaints (dashboard_of self df3))
  = map (fun r => category (class_row r)) df3 /\
  map p_sentiment (processed_complaints (dashboard_of self df3)) = map sentiment df3 /\
  map p_urgency (processed_complaints (dashboard_of self df3)) = map urgency df3 /\
  map p_clean_text (processed_complaints (dashboard_of self df3)) = map text_of df3 /\
  map p_raw_text (processed_complaints (dashboard_of self df3))
  = map (fun r => raw_text (raw_row (clean_row (class_row r)))) df3.
Proof.
  unfold dashboard_of; cbn [processed_complaints]; rewrite !map_map.
  repeat split.
Qed.

Lemma occurrences_pos {K} (eqb : K -> K -> bool) (k : K) (l : list K) :
  (forall a b, eqb a b = true <-> a = b) -> In k l -> 1 <= occurrences eqb k l.
Proof.
  intros Heq; unfold occurrences; induction l as [|x l IH]; simpl; [tauto|].
  intros [->|H].
  - rewrite (proj2 (Heq k k) eq_refl); simpl; lia.
  - destruct (eqb k x); simpl; auto with arith.
Qed.

(** [value_counts] holds one entry per distinct value, with the number of
    its occurrences. *)
Lemma value_counts_exact {K} (eqb : K -> K -> bool) (l : list K) :
  (forall a b, eqb a b = true <-> a = b) ->
  exact_counts eqb l (value_counts eqb l).
Proof.
  intros Heq.
  pose proof (ranking_of_Counter eqb Heq (fun _ => true) l) as R.
  rewrite filter_all in R; fold (value_counts eqb l) in R.
  destruct R as (Hnd & Hin & Hcnt & _).
  split; [exact Hnd | split; [exact Hin|]].
  intros k n H; split; [now apply Hcnt|].
  rewrite (Hcnt k n H); apply occurrences_pos; [exact Heq|].
  apply Hin; change k with (fst (k, n)); now apply in_map.
Qed.

(** X1. In a returned dashboard each of the three tables has one entry per
    label carried by the processed records, with the number of records that
    carry it; no label is listed twice and none with a count of zero. *)
Theorem dashboard_counts_are_exact (env : Env) (self : Self) (data : option (list PyDict))
  (file_path : option string) (g : Rng) (d : Dashboard) :
  fst (process_complaints env self data file_path g) = Ok (Some d) ->
  exact_counts Category_eqb (map p_category (processed_complaints d))
               (complaint_volume_by_category d) /\
  exact_counts String.eqb (map p_sentiment (processed_complaints d))
               (sentiment_overview d) /\
  exact_counts Urgency_eqb (map p_urgency (processed_complaints d))
               (urgency_distribution d).
Proof.
  intros H; apply process_complaints_dashboard in H as (df & df1 & _ & _ & ->).
  destruct (processed_of_dashboard self (toned self df1 g)) as (-> & -> & -> & _).
  unfold dashboard_of;
    cbn [complaint_volume_by_category sentiment_overview urgency_distribution].
  split; [|split].
  - apply value_counts_exact, Category_eqb_eq.
  - apply value_counts_exact, String.eqb_eq.
  - apply value_counts_exact, Urgency_eqb_eq.
Qed.

Lemma dashboard_counts_are_exact_witness :
  exists d,
    fst (process_complaints (no_files pandas_2) no_models (Some two_complaints) None counting_tape) = Ok (Some d) /\
    complaint_volume_by_category d = [(Mess, 1); (Hostel, 1)] /\
    exact_counts Category_eqb (map p_category (processed_complaints d))
                 (complaint_volume_by_category d).
Proof.
  eexists; split; [vm_compute; reflexivity|].
  split; [reflexivity|].
  match goal with
  | |- exact_counts _ (map p_category (processed_complaints ?d)) _ =>
      destruct (dashboard_counts_are_exact (no_files pandas_2) no_models (Some two_complaints) None
                  counting_tape d) as (H1 & _)
  end; [vm_compute; reflexivity | exact H1].
Defined.





(** X3. The processed records of a returned dashboard carry pairwise
    distinct [raw_text] cells; they are cells of the column the frame holds
    for the batch (a text as it is, NaN for a missing key, and a [None]
    as [stored_none] says), in their original order, none lost;
    each clean text is the normal form of its raw text. *)
Theorem processed_complaints_distinct_and_normalized (env : Env) (self : Self)
  (data : option (list PyDict)) (g : Rng) (d : Dashboard) :
  fst (process_complaints env self data None g) = Ok (Some d) ->
  exists l, data = Some l /\
    NoDup (map p_raw_text (processed_complaints d)) /\
    Subseq (map p_raw_text (processed_complaints d)) (raw_text_cells (pandas env) l) /\
    (forall c, In c (raw_text_cells (pandas env) l) -> In c (map p_raw_text (processed_complaints d))) /\
    Forall (fun r => normalized (p_raw_text r) (p_clean_text r) /\
                     p_clean_text r = clean_text_of (p_raw_text r))
           (processed_complaints d).
Proof.
  intros H; apply process_complaints_returns in H as (l & -> & _ & _ & ->).
  exists l; split; [reflexivity|].
  set (rows := index_rows 0 (raw_text_cells (pandas env) l)).
  set (kept := drop_duplicates Cell_eqb raw_text rows).
  assert (Hraw : map p_raw_text (processed_complaints
                   (dashboard_of self (toned self (cleaned (pandas env) l) g)))
                 = map raw_text kept).
  { destruct (processed_of_dashboard self (toned self (cleaned (pandas env) l) g))
      as (_ & _ & _ & _ & ->).
    rewrite <- (map_map (fun r => clean_row (class_row r)) (fun r => raw_text (raw_row r))).
    rewrite toned_rows; unfold cleaned; now rewrite map_map. }
  rewrite Hraw.
  split; [apply (drop_duplicates_from_NoDup Cell_eqb raw_text Cell_eqb_eq)|].
  split.
  { rewrite <- (index_rows_cells 0 (raw_text_cells (pandas env) l)).
    apply Subseq_map, drop_duplicates_from_subseq. }
  split.
  { intros c Hc.
    rewrite <- (index_rows_cells 0 (raw_text_cells (pandas env) l)) in Hc.
    apply in_map_iff in Hc as (r & <- & Hr).
    destruct (drop_duplicates_from_covers Cell_eqb raw_text Cell_eqb_eq [] _ r Hr)
      as [[]|H]; exact H. }
  unfold dashboard_of; cbn [processed_complaints].
  apply Forall_forall; intros p Hp.
  apply in_map_iff in Hp as (r & <- & Hr).
  assert (Hc : In (clean_row (class_row r)) (cleaned (pandas env) l)).
  { rewrite <- (toned_rows self (cleaned (pandas env) l) g).
    now apply (in_map (fun r => clean_row (class_row r))). }
  unfold cleaned in Hc; apply in_map_iff in Hc as (row & Hrow & _).
  unfold to_record; cbn [p_raw_text p_clean_text]; rewrite <- Hrow; simpl.
  split; [apply clean_text_of_normalized | reflexivity].
Qed.

Lemma processed_complaints_distinct_and_normalized_witness :
  exists d,
    fst (process_complaints (no_files pandas_2) no_models
           (Some (batch_of [" Fan BROKEN "; "no water"; " Fan BROKEN "])) None counting_tape)
    = Ok (Some d) /\
    map p_clean_text (processed_complaints d) = ["fan broken"; "no water"] /\
    NoDup (map p_raw_text (processed_complaints d)).
Proof.
  eexists; split; [vm_compute; reflexivity|].
  split; [reflexivity|].
  match goal with
  | |- NoDup (map p_raw_text (processed_complaints ?d)) =>
      destruct (processed_complaints_distinct_and_normalized (no_files pandas_2) no_models
                  (Some (batch_of [" Fan BROKEN "; "no water"; " Fan BROKEN "]))
                  counting_tape d) as (l & _ & H & _)
  end; [vm_compute; reflexivity | exact H].
Defined.

(** ** Keywords and draws *)

Lemma classify_text_eq (text : string) (g : Rng) :
  classify_text text g
  = match keyword_category text with
    | Some c => (c, g)
    | None => choice categories Hostel g
    end.
Proof.
  unfold classify_text, keyword_category; cbv zeta.
  destruct (any_in hostel_words (lower text)); [reflexivity|].
  destruct (any_in mess_words (lower text)); [reflexivity|].
  destruct (any_in academics_words (lower text)); [reflexivity|].
  destruct (any_in administration_words (lower text)); reflexivity.
Qed.

Lemma classify_complaints_cons (r : CleanRow) (df : list CleanRow) (g : Rng) :
  classify_complaints (r :: df) g
  = let (c, g1) := classify_text (clean_text r) g in
    let (rows, g2) := classify_complaints df g1 in
    ({| clean_row := r; category := c |} :: rows, g2).
Proof.
  unfold classify_complaints; cbn [mapM]; unfold bind at 1; unfold bind at 1.
  destruct (classify_text (clean_text r) g) as [c g1]; unfold ret at 1.
  unfold bind at 1.
  destruct (mapM _ df g1) as [rows g2]; reflexivity.
Qed.

Lemma classify_complaints_categories (df : list CleanRow) (g : Rng) :
  Forall (fun r => forall c, keyword_category (clean_text (clean_row r)) = Some c ->
                             category r = c)
         (fst (classify_complaints df g)).
Proof.
  revert g; induction df as [|r df IH]; intros g; [constructor|].
  rewrite classify_complaints_cons, classify_text_eq.
  destruct (keyword_category (clean_text r)) as [c|] eqn:E.
  - specialize (IH g); destruct (classify_complaints df g) as [rows g2].
    constructor; [simpl; intros c' Hc; congruence | exact IH].
  - destruct (choice categories Hostel g) as [c g1].
    specialize (IH g1); destruct (classify_complaints df g1) as [rows g2].
    constructor; [simpl; intros c' Hc; congruence | exact IH].
Qed.

Lemma classify_complaints_state (df : list CleanRow) (g : Rng) :
  tape (snd (classify_complaints df g)) = tape g /\
  drawn (snd (classify_complaints df g))
  = drawn g + List.length (filter (fun r => unmatched (clean_text r)) df).
Proof.
  revert g; induction df as [|r df IH]; intros g; [simpl; auto|].
  rewrite classify_complaints_cons, classify_text_eq.
  cbn [filter]; unfold unmatched at 1.
  destruct (keyword_category (clean_text r)) as [c|].
  - specialize (IH g); destruct (classify_complaints df g) as [rows g2].
    exact IH.
  - unfold choice.
    match goal with
    | |- context [classify_complaints df ?g1] =>
        specialize (IH g1); destruct (classify_complaints df g1) as [rows g2]
    end.
    cbn [fst snd tape drawn List.length] in *.
    destruct IH as [-> ->]; split; [reflexivity | lia].
Qed.

(** X4. In a returned dashboard the category of a processed record is the
    one of the first keyword rule its clean text matches, whenever it
    matches one; only the other records get a drawn category. *)
Theorem processed_categories_follow_keywords (env : Env) (self : Self)
  (data : option (list PyDict)) (file_path : option string) (g : Rng) (d : Dashboard) :
  fst (process_complaints env self data file_path g) = Ok (Some d) ->
  Forall (fun r => forall c, keyword_category (p_clean_text r) = Some c -> p_category r = c)
         (processed_complaints d).
Proof.
  intros H; apply process_complaints_dashboard in H as (df & df1 & _ & _ & ->).
  unfold dashboard_of; cbn [processed_complaints].
  apply Forall_forall; intros p Hp.
  apply in_map_iff in Hp as (r & <- & Hr).
  unfold to_record; cbn [p_clean_text p_category].
  assert (Hc : In (class_row r) (fst (classify_complaints df1 g))).
  { unfold toned in Hr.
    rewrite <- (analyze_sentiment_rows self (fst (classify_complaints df1 g))
                  (snd (classify_complaints df1 g))).
    now apply in_map. }
  pose proof (classify_complaints_categories df1 g) as F.
  rewrite Forall_forall in F; exact (F _ Hc).
Qed.

Lemma processed_categories_follow_keywords_witness :
  exists d,
    fst (process_complaints (no_files pandas_2) no_models
           (Some (batch_of ["Portal down again"; "MESS food and hostel fan"])) None
           (const_tape 3))
    = Ok (Some d) /\
    map p_category (processed_complaints d) = [Academics; Hostel] /\
    Forall (fun r => forall c, keyword_category (p_clean_text r) = Some c -> p_category r = c)
           (processed_complaints d).
Proof.
  eexists; split; [vm_compute; reflexivity|].
  split; [reflexivity|].
  apply (processed_categories_follow_keywords (no_files pandas_2) no_models
           (Some (batch_of ["Portal down again"; "MESS food and hostel fan"])) None
           (const_tape 3)).
  vm_compute; reflexivity.
Defined.

Lemma analyze_sentiment_state (self : Self) (df : list ClassRow) (g : Rng) :
  tape (snd (analyze_sentiment self df g)) = tape g /\
  drawn (snd (analyze_sentiment self df g))
  = drawn g
    + (match _sentiment_pipeline self with Some _ => 0 | None => List.length df end)
    + List.length df.
Proof.
  rewrite analyze_sentiment_eq.
  unfold sentiment_column, _get_sentiment_pipeline.
  destruct (_sentiment_pipeline self) as [p|].
  - unfold ret; rewrite choices_eq; cbn [fst snd tape drawn]; split; [reflexivity | lia].
  - rewrite choices_eq, choices_eq; cbn [fst snd tape drawn]; split; [reflexivity | lia].
Qed.

Lemma process_complaints_stages (env : Env) (self : Self) (data : option (list PyDict))
  (file_path : option string) (g : Rng) (df : DataFrame) (df1 : list CleanRow) :
  load env data file_path = Ok df -> clean_data df = Ok df1 ->
  process_complaints env self data file_path g
  = (Ok (Some (dashboard_of self (toned self df1 g))),
     snd (analyze_sentiment self (fst (classify_complaints df1 g))
                            (snd (classify_complaints df1 g)))).
Proof.
  intros Hl Hc.
  unfold process_complaints, try_except, process_body.
  rewrite Hl, Hc.
  unfold bind, toned, dashboard_of.
  destruct (classify_complaints df1 g) as [df2 g1]; cbn [fst snd].
  destruct (analyze_sentiment self df2 g1) as [df3 g2]; reflexivity.
Qed.

Lemma process_complaints_pair (env : Env) (self : Self) (l : list PyDict) (g : Rng) :
  l <> [] -> existsb has_raw_text l = true ->
  process_complaints env self (Some l) None g
  = (Ok (Some (dashboard_of self (toned self (cleaned (pandas env) l) g))),
     snd (analyze_sentiment self (fst (classify_complaints (cleaned (pandas env) l) g))
                            (snd (classify_complaints (cleaned (pandas env) l) g)))).
Proof.
  intros Hl E.
  apply (process_complaints_stages env self (Some l) None g (pd_DataFrame (pandas env) l)).
  - rewrite load_data; destruct l; [congruence | reflexivity].
  - now rewrite clean_data_eq, E.
Qed.

Lemma process_complaints_failure_state (env : Env) (self : Self) (data : option (list PyDict))
  (file_path : option string) (g : Rng) :
  fst (process_complaints env self data file_path g) = Ok None ->
  snd (process_complaints env self data file_path g) = g.
Proof.
  destruct (load env data file_path) as [df|e] eqn:Hl.
  - destruct (clean_data df) as [df1|e] eqn:Hc.
    + rewrite (process_complaints_stages env self data file_path g df df1 Hl Hc).
      discriminate.
    + intros _; unfold process_complaints, try_except, process_body.
      rewrite Hl, Hc; reflexivity.
  - intros _; unfold process_complaints, try_except, process_body.
    rewrite Hl; reflexivity.
Qed.

(** X5. The use [process_complaints] makes of the generator.  A call that
    returns [None] draws nothing.  A call that returns a dashboard of [n]
    complaints draws once for each processed record whose clean text matches
    no keyword, [n] times for the sentiments unless a sentiment pipeline is
    loaded, and [n] times for the urgencies. *)
Theorem process_complaints_draws (env : Env) (self : Self) (data : option (list PyDict))
  (file_path : option string) (g : Rng) :
  let g' := snd (process_complaints env self data file_path g) in
  tape g' = tape g /\
  match fst (process_complaints env self data file_path g) with
  | Ok (Some d) =>
      drawn g'
      = drawn g
        + List.length (filter (fun r => unmatched (p_clean_text r)) (processed_complaints d))
        + (match _sentiment_pipeline self with
           | Some _ => 0
           | None => total_complaints d
           end)
        + total_complaints d
  | _ => g' = g
  end.
Proof.
  intros g'; subst g'.
  destruct (fst (process_complaints env self data file_path g)) as [[d|]|e] eqn:E.
  - apply process_complaints_dashboard in E as (df & df1 & Hl & Hc & ->).
    rewrite (process_complaints_stages env self data file_path g df df1 Hl Hc); cbn [snd].
    destruct (analyze_sentiment_state self (fst (classify_complaints df1 g))
                (snd (classify_complaints df1 g))) as [-> ->].
    destruct (classify_complaints_state df1 g) as [-> ->].
    split; [reflexivity|].
    assert (Hn : List.length (fst (classify_complaints df1 g)) = List.length df1).
    { rewrite <- (classify_complaints_rows df1 g) at 2; now rewrite length_map. }
    rewrite Hn.
    unfold dashboard_of; cbn [total_complaints processed_complaints].
    rewrite toned_length.
    assert (Hf : List.length (filter (fun r => unmatched (p_clean_text r))
                                (map to_record (toned self df1 g)))
                 = List.length (filter (fun r => unmatched (clean_text r)) df1)).
    { rewrite <- (toned_rows self df1 g) at 2.
      generalize (toned self df1 g) as rows.
      induction rows as [|r rows IH]; simpl; [reflexivity|].
      destruct (unmatched (clean_text (clean_row (class_row r)))); simpl; now rewrite IH. }
    rewrite Hf; reflexivity.
  - rewrite (process_complaints_failure_state env self data file_path g E); auto.
  - pose proof (process_complaints_eq env self data file_path g) as H; rewrite E in H.
    destruct (fst (process_body env self data file_path g)); discriminate.
Qed.

(** ** Normal forms and tokens *)

Lemma lstrip_fixed (s : string) : starts_with_space s = false -> lstrip s = s.
Proof. destruct s as [|c s]; simpl; [reflexivity|]; now intros ->. Qed.

Lemma rstrip_cons (c : ascii) (t : string) :
  rstrip (String c t)
  = match rstrip t with
    | EmptyString => if is_space c then EmptyString else String c EmptyString
    | String d r => String c (String d r)
    end.
Proof. reflexivity. Qed.

Lemma rstrip_idem (s : string) : rstrip (rstrip s) = rstrip s.
Proof.
  induction s as [|c s IH]; simpl; [reflexivity|].
  destruct (rstrip s) as [|d r] eqn:E.
  - destruct (is_space c) eqn:F; simpl; [reflexivity | now rewrite F].
  - rewrite (rstrip_cons c (String d r)), IH; reflexivity.
Qed.

Lemma strip_idem (s : string) : strip (strip s) = strip s.
Proof.
  unfold strip.
  rewrite (lstrip_fixed (rstrip (lstrip s))), rstrip_idem; [reflexivity|].
  apply rstrip_keeps_head.
  destruct (lstrip_spec s) as (p & _ & _ & H); exact H.
Qed.

(** X6. Cleaning is idempotent: a clean text submitted as raw text is its
    own clean text. *)
Theorem clean_text_of_idempotent (c : Cell) :
  clean_text_of (Text (clean_text_of c)) = clean_text_of c.
Proof.
  destruct c as [| |s]; try reflexivity.
  unfold clean_text_of; cbn [isna str].
  now rewrite lower_strip, lower_idem, strip_idem.
Qed.

(** *** Keywords survive the cleaning *)

Lemma prefix_rstrip (w u : string) :
  no_space w = true -> String.prefix w (rstrip u) = String.prefix w u.
Proof.
  revert w; induction u as [|y u IH]; intros w Hw; [reflexivity|].
  destruct w as [|c w]; [simpl; now destruct (rstrip u); [destruct (is_space y)|]|].
  simpl in Hw; apply andb_true_iff in Hw as [Hc Hw]; apply negb_true_iff in Hc.
  specialize (IH w Hw).
  cbn [rstrip]; destruct (rstrip u) as [|d r] eqn:E.
  - destruct (is_space y) eqn:F; simpl.
    + destruct (ascii_dec c y) as [->|_]; [congruence | reflexivity].
    + destruct (ascii_dec c y) as [_|_]; [|reflexivity].
      rewrite <- IH; reflexivity.
  - simpl; destruct (ascii_dec c y) as [_|_]; [exact IH | reflexivity].
Qed.

Lemma contains_rstrip (t w : string) :
  no_space w = true -> w <> EmptyString ->
  contains (rstrip t) w = contains t w.
Proof.
  intros Hw Hne; induction t as [|x t IH]; [reflexivity|].
  cbn [contains]; fold contains.
  rewrite <- (prefix_rstrip w (String x t) Hw), <- IH.
  cbn [rstrip]; destruct (rstrip t) as [|d r] eqn:E.
  - destruct (is_space x); cbn [contains].
    + destruct w; [congruence | reflexivity].
    + destruct w; [congruence|]; simpl; now rewrite orb_false_r.
  - reflexivity.
Qed.

Lemma contains_lstrip (t w : string) :
  no_space w = true -> w <> EmptyString ->
  contains (lstrip t) w = contains t w.
Proof.
  intros Hw Hne; induction t as [|x t IH]; [reflexivity|].
  cbn [lstrip]; destruct (is_space x) eqn:F; [|reflexivity].
  rewrite IH; cbn [contains].
  destruct w as [|c w]; [congruence|].
  simpl in Hw; apply andb_true_iff in Hw as [Hc _]; apply negb_true_iff in Hc.
  simpl; destruct (ascii_dec c x) as [->|_]; [congruence | reflexivity].
Qed.

Lemma any_in_strip (words : list string) (t : string) :
  forallb (fun w => no_space w && negb (String.eqb w EmptyString)) words = true ->
  any_in words (strip t) = any_in words t.
Proof.
  unfold any_in, strip; induction words as [|w ws IH]; simpl; [reflexivity|].
  intros H; apply andb_true_iff in H as [Hw Hws].
  apply andb_true_iff in Hw as [Hs Hne]; apply negb_true_iff, String.eqb_neq in Hne.
  now rewrite IH, contains_rstrip, contains_lstrip.
Qed.

Lemma keyword_category_clean (s : string) :
  keyword_category (strip (lower s)) = keyword_category s.
Proof.
  unfold keyword_category; cbv zeta.
  rewrite lower_strip, lower_idem.
  now rewrite !any_in_strip by reflexivity.
Qed.

(** X7. The keyword rules see the same thing in a text and in its clean
    form: cleaning a text changes neither the rule it matches nor, with the
    same generator state, its category. *)
Theorem classify_text_clean (s : string) (g : Rng) :
  keyword_category (clean_text_of (Text s)) = keyword_category s /\
  classify_text (clean_text_of (Text s)) g = classify_text s g.
Proof.
  unfold clean_text_of; cbn [isna str].
  split; [apply keyword_category_clean|].
  now rewrite !classify_text_eq, keyword_category_clean.
Qed.

(** *** Tokens *)

Lemma lower_snoc (cur : string) (c : ascii) :
  lower (cur ++ String c EmptyString)
  = (lower cur ++ String (lower_char c) EmptyString)%string.
Proof. induction cur as [|x cur IH]; simpl; [reflexivity | now rewrite IH]. Qed.

Lemma flush_shape (cur : string) :
  all_word cur = true -> lower cur = cur ->
  Forall (fun w => w <> EmptyString /\ all_word w = true /\ lower w = w) (flush cur).
Proof.
  intros H L; destruct cur; repeat constructor; [discriminate | exact H | exact L].
Qed.

Lemma findall_words_shape (s cur : string) :
  all_word cur = true -> lower cur = cur -> lower s = s ->
  Forall (fun w => w <> EmptyString /\ all_word w = true /\ lower w = w)
         (findall_words s cur).
Proof.
  revert cur; induction s as [|c s IH]; intros cur Hcur Lcur Hs; simpl.
  - now apply flush_shape.
  - simpl in Hs; injection Hs as Hc Hs.
    destruct (is_word c) eqn:W.
    + apply IH; [now apply all_word_snoc | | exact Hs].
      now rewrite lower_snoc, Lcur, Hc.
    + apply Forall_app; split; [now apply flush_shape | now apply IH].
Qed.

(** X8. The tokens of a text are the maximal runs of word characters of
    its lower-cased form, from left to right; every token is a non-empty
    run of word characters that [lower] leaves as it is. *)
Theorem tokens_are_lower_words (text : string) :
  word_runs (lower text) (_tokenize text) /\
  Forall (fun w => w <> EmptyString /\ all_word w = true /\ lower w = w) (_tokenize text).
Proof.
  unfold _tokenize; split.
  - apply (findall_words_runs (lower text) EmptyString eq_refl).
  - apply findall_words_shape; [reflexivity | reflexivity | apply lower_idem].
Qed.

Lemma lower_append (a b : string) : lower (a ++ b) = (lower a ++ lower b)%string.
Proof. induction a as [|c a IH]; simpl; [reflexivity | now rewrite IH]. Qed.

Lemma findall_words_break (a b cur : string) (c : ascii) :
  is_word c = false ->
  findall_words (a ++ String c b) cur
  = (findall_words a cur ++ findall_words b EmptyString)%list.
Proof.
  intros Hc; revert cur; induction a as [|x a IH]; intros cur; simpl.
  - now rewrite Hc.
  - destruct (is_word x); [apply IH|].
    now rewrite IH, app_assoc.
Qed.

(** X9. The blank that joins the texts of a batch neither glues nor splits
    tokens: the tokens of the joined text are the tokens of the first text,
    then those of the second, and so on. *)
Theorem tokenize_join (texts : list string) :
  _tokenize (join " " texts) = List.concat (map _tokenize texts).
Proof.
  induction texts as [|s texts IH]; [reflexivity|].
  destruct texts as [|s' texts].
  - simpl; now rewrite app_nil_r.
  - change (join " " (s :: s' :: texts))
      with (s ++ String " "%char (join " " (s' :: texts)))%string.
    unfold _tokenize in *; rewrite lower_append; cbn [lower].
    rewrite findall_words_break by reflexivity.
    cbn [map List.concat]; f_equal; exact IH.
Qed.

(** ** Sentiments *)

Lemma map_eq_Forall {A B} (f h : A -> B) (l : list A) :
  map f l = map h l -> Forall (fun a => f a = h a) l.
Proof.
  induction l as [|a l IH]; simpl; intros H; [constructor|].
  injection H as H1 H2; constructor; auto.
Qed.

Lemma analyze_sentiment_pointwise (self : Self) (p : string -> option string)
  (df : list ClassRow) (g : Rng) :
  _sentiment_pipeline self = Some p ->
  Forall (fun r => sentiment r = get_sentiment p (clean_text (clean_row (class_row r))))
         (fst (analyze_sentiment self df g)).
Proof.
  intros Hp.
  destruct (analyze_sentiment_columns self df g) as (H1 & H2 & _).
  unfold sentiment_column, _get_sentiment_pipeline in H2; rewrite Hp in H2.
  cbn [fst ret] in H2.
  remember (fst (analyze_sentiment self df g)) as out eqn:Ho; clear Ho.
  subst df; rewrite map_map in H2.
  now apply map_eq_Forall in H2.
Qed.

(** X11. With a sentiment pipeline loaded, the sentiment of a row is Neutral
    when its clean text is empty or when the pipeline raises, and otherwise
    the capitalized label the pipeline gives to the first 250 characters of
    the text; the generator is used for the urgencies only, row [i] getting
    draw [i]. *)
Theorem model_tone (self : Self) (p : string -> option string)
  (df : list ClassRow) (g : Rng) :
  _sentiment_pipeline self = Some p ->
  let out := fst (analyze_sentiment self df g) in
  map class_row out = df /\
  Forall (fun r =>
            let t := clean_text (clean_row (class_row r)) in
            (t = EmptyString -> sentiment r = "Neutral") /\
            (p (take 250 t) = None -> sentiment r = "Neutral") /\
            (forall lbl, t <> EmptyString -> p (take 250 t) = Some lbl ->
                         sentiment r = capitalize lbl)) out /\
  map urgency out
  = map (fun i => nth (tape g (drawn g + i) mod 3) [High; Medium; Low] High)
        (seq 0 (List.length df)).
Proof.
  intros Hp out.
  destruct (analyze_sentiment_columns self df g) as (H1 & _ & H3).
  fold out in H1, H3.
  split; [exact H1 | split].
  - pose proof (analyze_sentiment_pointwise self p df g Hp) as F; fold out in F.
    revert F; apply Forall_impl; intros r ->; cbv zeta.
    unfold get_sentiment.
    destruct (clean_text (clean_row (class_row r))) as [|c t] eqn:E.
    + repeat split; congruence.
    + destruct (p (take 250 (String c t))) as [lbl|]; repeat split; congruence.
  - rewrite H3; unfold sentiment_column, _get_sentiment_pipeline; rewrite Hp.
    cbn [snd ret]; now rewrite choices_eq.
Qed.

Lemma model_tone_witness :
  map sentiment (fst (analyze_sentiment with_sentiment [urgent_row] (const_tape 1)))
  = ["Negative"] /\
  map urgency (fst (analyze_sentiment with_sentiment [urgent_row] (const_tape 1)))
  = [Medium].
Proof.
  destruct (model_tone with_sentiment (fun _ => Some "NEGATIVE") [urgent_row]
              (const_tape 1) eq_refl) as (_ & _ & H3).
  split; [reflexivity | rewrite H3; reflexivity].
Defined.

Lemma choices_Forall {A} (P : A -> Prop) (a : list A) (d : A) (n : nat) (g : Rng) :
  a <> [] -> Forall P a -> Forall P (fst (choices a d n g)).
Proof.
  intros Ha HP; rewrite choices_eq; cbn [fst].
  apply Forall_forall; intros x Hx.
  apply in_map_iff in Hx as (i & <- & _).
  rewrite Forall_forall in HP; apply HP, nth_In, Nat.mod_upper_bound.
  destruct a; [congruence | discriminate].
Qed.

Lemma get_sentiment_capitalized (p : string -> option string) (t : string) :
  exists lbl, get_sentiment p t = capitalize lbl.
Proof.
  unfold get_sentiment; destruct t as [|c t]; [now exists "neutral"|].
  destruct (p (take 250 (String c t))) as [lbl|]; [now exists lbl | now exists "neutral"].
Qed.

(** X12. Every sentiment label of a returned dashboard, in the processed
    records and among the keys of [sentiment_overview], is the [capitalize]
    of some string. *)
Theorem sentiments_are_capitalized (env : Env) (self : Self) (data : option (list PyDict))
  (file_path : option string) (g : Rng) (d : Dashboard) :
  fst (process_complaints env self data file_path g) = Ok (Some d) ->
  Forall (fun r => exists lbl, p_sentiment r = capitalize lbl) (processed_complaints d) /\
  (forall k, In k (map fst (sentiment_overview d)) -> exists lbl, k = capitalize lbl).
Proof.
  intros H; apply process_complaints_dashboard in H as (df & df1 & _ & _ & ->).
  assert (F : Forall (fun s => exists lbl, s = capitalize lbl)
                     (map sentiment (toned self df1 g))).
  { unfold toned.
    destruct (analyze_sentiment_columns self (fst (classify_complaints df1 g))
                (snd (classify_complaints df1 g))) as (_ & -> & _).
    unfold sentiment_column, _get_sentiment_pipeline.
    destruct (_sentiment_pipeline self) as [p|].
    - cbn [fst ret]; apply Forall_forall; intros s Hs.
      apply in_map_iff in Hs as (r & <- & _); apply get_sentiment_capitalized.
    - apply choices_Forall; [discriminate|].
      repeat constructor;
        [now exists "negative" | now exists "neutral" | now exists "positive"]. }
  split.
  - unfold dashboard_of; cbn [processed_complaints].
    rewrite Forall_forall in *; intros r Hr.
    apply in_map_iff in Hr as (c & <- & Hc); apply F.
    unfold to_record; cbn [p_sentiment]; now apply in_map.
  - unfold dashboard_of; cbn [sentiment_overview]; intros k Hk.
    destruct (value_counts_exact String.eqb (map sentiment (toned self df1 g))
                String.eqb_eq) as (_ & Hin & _).
    apply (proj1 (Hin k)) in Hk.
    rewrite Forall_forall in F; now apply F.
Qed.

Lemma sentiments_are_capitalized_witness :
  exists d,
    fst (process_complaints (no_files pandas_2) with_sentiment (Some two_complaints) None counting_tape) = Ok (Some d) /\
    sentiment_overview d = [("Negative", 2)] /\
    Forall (fun r => exists lbl, p_sentiment r = capitalize lbl) (processed_complaints d).
Proof.
  eexists; split; [vm_compute; reflexivity|].
  split; [reflexivity|].
  apply (sentiments_are_capitalized (no_files pandas_2) with_sentiment (Some two_complaints) None counting_tape).
  vm_compute; reflexivity.
Defined.

(** ** Topics *)


Lemma In_firstn {A} (n : nat) (l : list A) (x : A) : In x (firstn n l) -> In x l.
Proof.
  intros H; rewrite <- (firstn_skipn n l); apply in_or_app; now left.
Qed.



(** ** The endpoints *)

Lemma batch_of_has_raw_text (x : string) (b : list string) :
  batch_of (x :: b) <> [] /\ existsb has_raw_text (batch_of (x :: b)) = true.
Proof. split; [discriminate | reflexivity]. Qed.

(** X14. [POST /analyze/batch] fails for the empty batch only, and then with
    status 500: the status 400 written in the handler never leaves it.  For
    any other batch the answer is the dashboard of [process_complaints]. *)
Theorem analyze_complaints_batch_reply (env : Env) (self : Self) (batch : list string)
  (g : Rng) :
  match fst (analyze_complaints_batch env self batch g) with
  | Response d =>
      batch <> [] /\
      fst (process_complaints env self (Some (batch_of batch)) None g) = Ok (Some d)
  | HTTPException status_code => batch = [] /\ status_code = 500
  end.
Proof.
  destruct batch as [|x b]; [split; reflexivity|].
  destruct (batch_of_has_raw_text x b) as [Hl Hk].
  pose proof (process_complaints_pair env self _ g Hl Hk) as P.
  rewrite P; cbn [fst].
  unfold analyze_complaints_batch, bind; cbn [map].
  match goal with
  | |- context [process_complaints ?e ?s ?d ?f ?g0] =>
      destruct (process_complaints e s d f g0) as [rs g'] eqn:E
  end.
  assert (Q : (rs, g')
              = (Ok (Some (dashboard_of self
                             (toned self (cleaned (pandas env) (batch_of (x :: b))) g))),
                 snd (analyze_sentiment self
                        (fst (classify_complaints (cleaned (pandas env) (batch_of (x :: b))) g))
                        (snd (classify_complaints (cleaned (pandas env) (batch_of (x :: b))) g)))))
    by (rewrite <- E; exact P).
  injection Q as -> ->.
  cbn [fst ret]; split; [discriminate | reflexivity].
Qed.

Lemma toned_categories (self : Self) (df1 : list CleanRow) (g : Rng) :
  Forall (fun r => forall c, keyword_category (text_of r) = Some c ->
                             category (class_row r) = c)
         (toned self df1 g).
Proof.
  apply Forall_forall; intros r Hr.
  assert (Hc : In (class_row r) (fst (classify_complaints df1 g))).
  { unfold toned in Hr.
    rewrite <- (analyze_sentiment_rows self (fst (classify_complaints df1 g))
                  (snd (classify_complaints df1 g))).
    now apply in_map. }
  pose proof (classify_complaints_categories df1 g) as F.
  rewrite Forall_forall in F; exact (F _ Hc).
Qed.

(** X15. [POST /analyze/single] always answers, whatever the text: the
    answer repeats the text, gives its clean form, and its category is the
    one of the first keyword rule the text matches, when it matches one. *)
Theorem analyze_single_complaint_reply (env : Env) (self : Self) (raw : string) (g : Rng) :
  exists a,
    fst (analyze_single_complaint env self raw g) = Sent a /\
    s_complaint a = raw /\
    s_clean_text a = strip (lower raw) /\
    (forall c, keyword_category raw = Some c -> s_category a = c).
Proof.
  unfold analyze_single_complaint, bind.
  rewrite process_complaints_pair by (try discriminate; reflexivity).
  set (row := {| raw_row := {| label := 0; raw_text := Text raw |};
                 clean_text := strip (lower raw) |}).
  assert (Hrow : cleaned (pandas env) [[("raw_text", Some raw)]] = [row])
    by (destruct (pandas env); reflexivity).
  rewrite Hrow.
  pose proof (toned_rows self [row] g) as Hr.
  pose proof (toned_categories self [row] g) as Hc.
  unfold dashboard_of; cbn [processed_complaints].
  destruct (toned self [row] g) as [|r [|r' rest]]; try discriminate.
  injection Hr as Hr.
  cbn [map fst ret]; eexists; split; [reflexivity|].
  unfold to_record; cbn [s_complaint s_clean_text s_category p_category p_clean_text].
  rewrite Hr; cbn [clean_text].
  split; [reflexivity | split; [reflexivity|]].
  intros c Hk; inversion Hc as [|? ? H1 _]; subst; apply H1.
  unfold text_of; rewrite Hr; unfold row; cbn [clean_text].
  now rewrite keyword_category_clean.
Qed.

(** ** The analytics read from the database *)

Lemma insert_desc_counts_sorted {K} (x : K * nat) (s : list (K * nat)) :
  StronglySorted (fun a b => snd b <= snd a) s ->
  StronglySorted (fun a b => snd b <= snd a) (insert_desc x s).
Proof.
  induction 1 as [|y t Hs IH Hy]; simpl; [repeat constructor|].
  destruct (snd x <? snd y) eqn:E.
  - apply Nat.ltb_lt in E; constructor; [exact IH|].
    apply Forall_perm with (l := x :: t); [symmetry; apply insert_desc_perm|].
    constructor; [lia | exact Hy].
  - apply Nat.ltb_ge in E; constructor; [now constructor|].
    constructor; [exact E|].
    revert Hy; apply Forall_impl; intros z Hz; lia.
Qed.

Lemma sort_desc_counts_sorted {K} (l : list (K * nat)) :
  StronglySorted (fun a b => snd b <= snd a) (sort_desc l).
Proof.
  induction l as [|x l IH]; simpl; [constructor | now apply insert_desc_counts_sorted].
Qed.

Lemma StronglySorted_app_parts {A} (R : A -> A -> Prop) (l1 l2 : list A) :
  StronglySorted R (l1 ++ l2) ->
  StronglySorted R l1 /\ forall a b, In a l1 -> In b l2 -> R a b.
Proof.
  induction l1 as [|x l1 IH]; simpl; intros H.
  - split; [constructor | tauto].
  - inversion H as [|? ? Hs Hx]; subst.
    destruct (IH Hs) as [H1 H2]; split.
    + constructor; [exact H1|].
      apply Forall_app in Hx; tauto.
    + intros a b [<-|Ha] Hb; [|now apply H2].
      rewrite Forall_forall in Hx; apply Hx, in_or_app; now right.
Qed.

(** X16. When the database answers, [GET /analytics/db] lists as top
    recurring issues the names of at most five categories of the
    statistics, the most numerous first: the listed categories stand in
    non-increasing order of count, and no category left out has a larger
    count than a listed one. *)
Theorem database_top_issues (datetime : Type) (isoformat : datetime -> string)
  (stats : Stats) (rows : list (GrievanceRow datetime)) :
  exists r top rest,
    get_database_analytics datetime isoformat (Some stats) (Some rows) = Sent r /\
    db_total_complaints r = st_total stats /\
    db_top_recurring_issues r = map fst top /\
    List.length top = Nat.min 5 (List.length (st_categories stats)) /\
    Permutation (top ++ rest) (st_categories stats) /\
    StronglySorted (fun a b => snd b <= snd a) top /\
    (forall a b, In a top -> In b rest -> snd b <= snd a).
Proof.
  set (sorted := sort_desc (st_categories stats)).
  eexists; exists (firstn 5 sorted), (skipn 5 sorted).
  split; [reflexivity|].
  split; [reflexivity|].
  split; [reflexivity|].
  assert (Hp : Permutation sorted (st_categories stats)) by apply sort_desc_perm.
  split; [rewrite length_firstn, (Permutation_length Hp); reflexivity|].
  split; [now rewrite firstn_skipn|].
  apply StronglySorted_app_parts; rewrite firstn_skipn.
  apply sort_desc_counts_sorted.
Qed.

Lemma get_or_absent (k : string) (d : list (string * nat)) (n : nat) :
  ~ In k (map fst d) -> get_or k d n = n.
Proof.
  induction d as [|[k' v] t IH]; simpl; [reflexivity|].
  intros H; destruct (String.eqb k k') eqn:E.
  - apply String.eqb_eq in E; subst; tauto.
  - apply IH; tauto.
Qed.

Lemma title_char_head (c : ascii) :
  exists x t, title_char c = String x t /\ Ascii.eqb x "n"%char = false.
Proof.
  destruct c as [[] [] [] [] [] [] [] []];
    vm_compute; eexists; eexists; split; reflexivity.
Qed.

Lemma capitalize_not_negative (lbl : string) : capitalize lbl <> "negative".
Proof.
  destruct lbl as [|c t]; simpl; [discriminate|].
  destruct (title_char_head c) as (x & t' & -> & N); simpl.
  intros H; injection H as H _; subst x; discriminate.
Qed.

(** X17. The sentence of [GET /analytics/db] counts the sentiments under the
    key [negative] and the urgencies under the key [high].  When the
    statistics hold the labels the pipeline writes (capitalized sentiments;
    High, Medium, Low), both counts in the sentence are 0, whatever the
    statistics say. *)
Theorem database_summary_counts_lowercase_keys (datetime : Type)
  (isoformat : datetime -> string) (stats : Stats) (rows : list (GrievanceRow datetime)) :
  (forall k, In k (map fst (st_sentiments stats)) -> exists lbl, k = capitalize lbl) ->
  (forall k, In k (map fst (st_urgencies stats)) -> In k ["High"; "Medium"; "Low"]) ->
  exists r,
    get_database_analytics datetime isoformat (Some stats) (Some rows) = Sent r /\
    db_weekly_summary r
    = "Database contains " ++ of_nat (st_total stats) ++ " total grievances. "
      ++ "0" ++ " show negative sentiment, and " ++ "0"
      ++ " are marked as high urgency. Top categories: "
      ++ join ", " (firstn 3 (db_top_recurring_issues r)) ++ ".".
Proof.
  intros Hs Hu; eexists; split; [reflexivity|].
  cbn [db_weekly_summary db_top_recurring_issues].
  rewrite (get_or_absent "negative"), (get_or_absent "high"); [reflexivity| |].
  - intros H; apply Hu in H; simpl in H.
    destruct H as [H|[H|[H|[]]]]; discriminate.
  - intros H; apply Hs in H as (lbl & H).
    symmetry in H; now apply capitalize_not_negative in H.
Qed.

Lemma database_summary_counts_lowercase_keys_witness :
  exists r,
    get_database_analytics unit (fun _ => "2024-01-01T00:00:00")
      (Some {| st_total := 3;
               st_categories := [("Mess", 1); ("Hostel", 2)];
               st_sentiments := [("Negative", 3)];
               st_urgencies := [("High", 2); ("Low", 1)] |})
      (Some []) = Sent r /\
    db_weekly_summary r
    = "Database contains 3 total grievances. 0 show negative sentiment, and 0 are marked as high urgency. Top categories: Hostel, Mess.".
Proof.
  destruct (database_summary_counts_lowercase_keys unit (fun _ => "2024-01-01T00:00:00")
              {| st_total := 3;
                 st_categories := [("Mess", 1); ("Hostel", 2)];
                 st_sentiments := [("Negative", 3)];
                 st_urgencies := [("High", 2); ("Low", 1)] |} [])
    as (r & Hr & Hw).
  - intros k [<-|[]]; now exists "negative".
  - intros k [<-|[<-|[]]]; simpl; auto.
  - exists r; split; [exact Hr|].
    injection Hr as <-; reflexivity.
Defined.

(** ** The standalone script *)

(** X18. The standalone script and the class report the same top recurring
    issues for the same frame: the count the script looks up in its counter
    for each of the three words is the count [most_common] gave with it. *)
Theorem script_top_issues_agree (summarizer : option (string -> option string))
  (self : Self) (df : list Complaint) :
  t_top_recurring_issues (AiSummarizer.summarize_and_extract_trends summarizer df)
  = t_top_recurring_issues (extract_trends self df).
Proof.
  unfold AiSummarizer.summarize_and_extract_trends, extract_trends,
    AiSummarizer.simple_word_tokenize, _tokenize, most_common.
  cbn [t_top_recurring_issues].
  set (words := filter keep_word
                  (findall_words (lower (join " " (map text_of df))) EmptyString)).
  rewrite map_map; apply map_ext_in; intros [w n] Hw.
  apply In_firstn in Hw.
  apply (Permutation_in _ (sort_desc_perm (Counter String.eqb words))) in Hw.
  unfold render_issue; cbn [fst snd].
  rewrite (recorded_In String.eqb String.eqb_eq w n (Counter String.eqb words));
    [reflexivity | apply keys_Counter_NoDup, String.eqb_eq | exact Hw].
Qed.

(** ** The summary of a returned dashboard *)


